(** * Two-factor authentication widget: the OTP entry state machine

    The repository holds two implementations of the same six-cell OTP
    widget, both Svelte components:

    - the _controller_ variant (TypeScript, [inputs] array plus
      [activeInputIndex]), which renders six [OtpInput] children;
    - the _page_ variant (plain JavaScript), which keeps the digits in
      the DOM ([.digit-display] text of each container) and reads them
      back with [updateCurrentCode].

    Both are embedded here as pure state transformers.  A Svelte
    component runs one event handler (or timer callback) to completion
    and then, in a microtask, _flushes_: the reactive [$:] statements
    whose dependencies were invalidated run once, in dependency order,
    and only then is the DOM patched.  A handler therefore reads the
    reactive variables as they were at the previous flush.  The
    embedding makes that explicit: every handler is a function on the
    component state, [flush] is a separate function, and [step]
    composes the two. *)

From Stdlib Require Import Ascii String.
From stdpp Require Import base decidable list strings pretty.

Local Open Scope string_scope.
Local Open Scope list_scope.
Local Open Scope nat_scope.

(** ** JavaScript string and array primitives used by the handlers *)

Module Js.

(** [\d] without the unicode flag: the ten ASCII digits. *)
Definition is_digit (c : ascii) : bool :=
  bool_decide (48 ≤ nat_of_ascii c ≤ 57).

(** [/^\d$/.test(v)]: the whole string is exactly one digit. *)
Definition test_digit (v : string) : bool :=
  match v with
  | String c EmptyString => is_digit c
  | _ => false
  end.

(** [s.replace(/\D/g, '')]: drop every character that is not a digit. *)
Fixpoint strip_non_digits (s : string) : string :=
  match s with
  | EmptyString => EmptyString
  | String c r =>
      if is_digit c then String c (strip_non_digits r)
      else strip_non_digits r
  end.

(** [/^\d{6}$/.test(s)] *)
Fixpoint all_digits (s : string) : bool :=
  match s with
  | EmptyString => true
  | String c r => is_digit c && all_digits r
  end.

Definition test_six_digits (s : string) : bool :=
  bool_decide (String.length s = 6) && all_digits s.

(** [s[i]]: the one-character string at position [i]; out of range
    JavaScript yields [undefined], which every use below treats like
    the empty string. *)
Definition char_at (s : string) (i : nat) : string :=
  match String.get i s with
  | Some c => String c EmptyString
  | None => ""
  end.

(** Truthiness of a string value: only [''] is falsy. *)
Definition truthy (v : string) : bool :=
  match v with
  | EmptyString => false
  | String _ _ => true
  end.

(** [l.join('')] *)
Fixpoint join (l : list string) : string :=
  match l with
  | [] => ""
  | x :: r => x +:+ join r
  end.

(** [l[i]] read as a string; a missing element is [undefined], falsy
    and joined as [''] *)
Definition array_get (l : list string) (i : nat) : string :=
  match l !! i with
  | Some v => v
  | None => ""
  end.

(** [l[i] = v]: in range the slot is overwritten; past the end the
    array grows, the holes in between reading as [undefined]. *)
Definition array_set (l : list string) (i : nat) (v : string) : list string :=
  if decide (i < length l) then <[i:=v]> l
  else l ++ replicate (i - length l) "" ++ [v].

(** [Array(n).fill('')] *)
Definition array_fill (n : nat) : list string := replicate n "".

End Js.

(** ** What the two variants share *)

(** [currentState]: ['default'], ['success'] or ['error'] *)
Inductive status := st_default | st_success | st_error.

#[export] Instance status_eq_dec : EqDecision status.
Proof. solve_decision. Defined.

Definition DEFAULT_STATUS_TEXT : string :=
  "Enter 6-digit code from your two factor authenticator APP".

(** The four-valued lifecycle of the specification.  Neither variant
    stores it: the verifying phase is [isLoading], the rest is
    [currentState]. *)
Inductive LifecycleState := Idle | Verifying | Success | Error.

Definition lifecycle_of (loading : bool) (c : status) : LifecycleState :=
  if loading then Verifying
  else match c with
       | st_default => Idle
       | st_success => Success
       | st_error => Error
       end.

(** ** The controller variant *)

Module Controller.
Import Js.

Definition CORRECT_CODE : string := "123456".

(** The component's variables.  [currentCode] is the reactive
    [$: currentCode = inputs.join('')]; the two [dirty_] flags record
    which dependencies of the reactive statements were invalidated
    since the last flush. *)
Record state := mkState {
  inputs : list string;
  activeInputIndex : nat;
  currentState : status;
  statusText : string;
  isLoading : bool;
  buttonText : string;
  isButtonDisabled : bool;
  currentCode : string;
  dirty_inputs : bool;
  dirty_currentState : bool
}.

(** Side-effect intents handed to the presentation layer. *)
Inductive effect :=
| Focus (i : nat)        (* inputElements[i]?.focus() *)
| Shake.                 (* triggerShakeAnimation() *)

(** Callbacks waiting on a timer. *)
Inductive task :=
| ResumeSubmit           (* rest of handleSubmit, after the awaited 1500ms *)
| ClearInputs.           (* the 400ms callback that empties the cells *)

#[export] Instance task_eq_dec : EqDecision task.
Proof. solve_decision. Defined.

Record world := mkWorld {
  comp : state;
  pending : list (nat * task);   (* (delay in ms, callback) *)
  log : list effect
}.

(** *** Assignments

    An assignment to a component variable goes through Svelte's
    [$$invalidate]: an array is always marked dirty, a primitive only
    when its value changed. *)

Definition set_inputs (l : list string) (s : state) : state :=
  mkState l (activeInputIndex s) (currentState s) (statusText s)
          (isLoading s) (buttonText s) (isButtonDisabled s) (currentCode s)
          true (dirty_currentState s).

Definition set_activeInputIndex (i : nat) (s : state) : state :=
  mkState (inputs s) i (currentState s) (statusText s)
          (isLoading s) (buttonText s) (isButtonDisabled s) (currentCode s)
          (dirty_inputs s) (dirty_currentState s).

Definition set_currentState (c : status) (s : state) : state :=
  mkState (inputs s) (activeInputIndex s) c (statusText s)
          (isLoading s) (buttonText s) (isButtonDisabled s) (currentCode s)
          (dirty_inputs s)
          (dirty_currentState s || negb (bool_decide (c = currentState s))).

Definition set_statusText (t : string) (s : state) : state :=
  mkState (inputs s) (activeInputIndex s) (currentState s) t
          (isLoading s) (buttonText s) (isButtonDisabled s) (currentCode s)
          (dirty_inputs s) (dirty_currentState s).

Definition set_isLoading (b : bool) (s : state) : state :=
  mkState (inputs s) (activeInputIndex s) (currentState s) (statusText s)
          b (buttonText s) (isButtonDisabled s) (currentCode s)
          (dirty_inputs s) (dirty_currentState s).

Definition set_buttonText (t : string) (s : state) : state :=
  mkState (inputs s) (activeInputIndex s) (currentState s) (statusText s)
          (isLoading s) t (isButtonDisabled s) (currentCode s)
          (dirty_inputs s) (dirty_currentState s).

Definition set_isButtonDisabled (b : bool) (s : state) : state :=
  mkState (inputs s) (activeInputIndex s) (currentState s) (statusText s)
          (isLoading s) (buttonText s) b (currentCode s)
          (dirty_inputs s) (dirty_currentState s).

Definition set_currentCode (c : string) (s : state) : state :=
  mkState (inputs s) (activeInputIndex s) (currentState s) (statusText s)
          (isLoading s) (buttonText s) (isButtonDisabled s) c
          (dirty_inputs s) (dirty_currentState s).

Definition clear_dirty (s : state) : state :=
  mkState (inputs s) (activeInputIndex s) (currentState s) (statusText s)
          (isLoading s) (buttonText s) (isButtonDisabled s) (currentCode s)
          false false.

(** Lifting to the world. *)
Definition on_comp (f : state → state) (w : world) : world :=
  mkWorld (f (comp w)) (pending w) (log w).

Definition emit (e : effect) (w : world) : world :=
  mkWorld (comp w) (pending w) (log w ++ [e]).

(** [setTimeout(cb, ms)] *)
Definition setTimeout (t : task) (ms : nat) (w : world) : world :=
  mkWorld (comp w) (pending w ++ [(ms, t)]) (log w).

(** [activeInputIndex = i; inputElements[activeInputIndex]?.focus()] *)
Definition move_focus (i : nat) (w : world) : world :=
  emit (Focus i) (on_comp (set_activeInputIndex i) w).

(** *** Event handlers *)

Definition handleInput (index : nat) (value : string) (w : world) : world :=
  if negb (test_digit value) then w
  else
    let w1 := on_comp (set_inputs (array_set (inputs (comp w)) index value)) w in
    if decide (index < 5) then move_focus (index + 1) w1 else w1.

Definition handleKeydown (index : nat) (key : string) (w : world) : world :=
  if bool_decide (key = "Backspace") then
    let cells := inputs (comp w) in
    let w1 :=
      if truthy (array_get cells index) then
        on_comp (set_inputs (array_set cells index "")) w
      else if decide (0 < index) then
        move_focus (index - 1)
          (on_comp (set_inputs (array_set cells (index - 1) "")) w)
      else w in
    (* inputs = [...inputs] *)
    on_comp (λ s, set_inputs (inputs s) s) w1
  else if bool_decide (key = "ArrowLeft") && bool_decide (0 < index) then
    move_focus (index - 1) w
  else if bool_decide (key = "ArrowRight") && bool_decide (index < 5) then
    move_focus (index + 1) w
  else w.

(** The body of the paste loop,
    [for (i = 0; i < n; i++) inputs[index + i] = pastedData[i]]. *)
Definition paste_cells (pastedData : string) (index n : nat)
    (cells : list string) : list string :=
  foldl (λ acc i, array_set acc (index + i) (char_at pastedData i))
        cells (seq 0 n).

Definition handlePaste (index : nat) (text : string) (w : world) : world :=
  let pastedData := strip_non_digits text in
  if negb (truthy pastedData) then w
  else
    let end_ := (index + String.length pastedData) `min` 6 in
    let w1 :=
      on_comp (set_inputs
                 (paste_cells pastedData index (end_ - index) (inputs (comp w)))) w in
    move_focus (end_ `min` 5) w1.

(** [handleSubmit] up to its [await]. *)
Definition handleSubmit (w : world) : world :=
  if negb (bool_decide (String.length (currentCode (comp w)) = 6)) then w
  else setTimeout ResumeSubmit 1500 (on_comp (set_isLoading true) w).

(** The 400ms callback scheduled on a wrong code. *)
Definition clearInputs (w : world) : world :=
  emit (Focus 0)
    (on_comp (λ s, set_activeInputIndex 0 (set_inputs (array_fill 6) s)) w).

(** [handleSubmit] after the awaited delay. *)
Definition resumeSubmit (w : world) : world :=
  let w1 :=
    if bool_decide (currentCode (comp w) = CORRECT_CODE) then
      on_comp (λ s, set_buttonText "Let's go!" (set_currentState st_success s)) w
    else
      setTimeout ClearInputs 400
        (emit Shake
           (on_comp (λ s, set_buttonText "Wrong code!"
                            (set_currentState st_error s)) w)) in
  on_comp (set_isLoading false) w1.

(** *** Reactive statements *)

(** The [$: { ... }] block; it reads [currentCode] and [currentState]. *)
Definition reactive_block (s : state) : state :=
  let digitsEntered := Z.of_nat (String.length (currentCode s)) in
  let digitsLeft := (6 - digitsEntered)%Z in
  let s1 :=
    if bool_decide (digitsLeft > 0)%Z then
      set_buttonText
        (if bool_decide (digitsLeft = 1)%Z then "1 digit left"
         else pretty digitsLeft +:+ " digits left")
        (set_isButtonDisabled true s)
    else
      set_buttonText "Verify the code" (set_isButtonDisabled false s) in
  if bool_decide (currentState s1 = st_error) && bool_decide (digitsEntered > 0)%Z
  then set_statusText DEFAULT_STATUS_TEXT (set_currentState st_default s1)
  else s1.

(** One flush: [currentCode] is recomputed when [inputs] was
    invalidated; the block runs when [currentCode] changed or
    [currentState] was invalidated; then the dirty flags are reset. *)
Definition flush (s : state) : state :=
  let code := if dirty_inputs s then join (inputs s) else currentCode s in
  let code_changed := negb (bool_decide (code = currentCode s)) in
  let s1 := set_currentCode code s in
  clear_dirty
    (if code_changed || dirty_currentState s then reactive_block s1 else s1).

Definition flush_world (w : world) : world := on_comp flush w.

(** *** Events *)

Inductive event :=
| EvInput (index : nat) (value : string)
| EvKeydown (index : nat) (key : string)
| EvPaste (index : nat) (text : string)
| EvFocus (index : nat)
| EvClick
| EvTimer (k : nat).

(** The button carries [disabled={isButtonDisabled || isLoading}]; a
    disabled button dispatches no click. *)
Definition button_disabled (s : state) : bool :=
  isButtonDisabled s || isLoading s.

Definition run_task (t : task) (w : world) : world :=
  match t with
  | ResumeSubmit => resumeSubmit w
  | ClearInputs => clearInputs w
  end.

(** The [k]-th pending timer fires: it leaves the queue and runs. *)
Definition fire (k : nat) (w : world) : world :=
  match pending w !! k with
  | Some (_, t) => run_task t (mkWorld (comp w) (delete k (pending w)) (log w))
  | None => w
  end.

Definition dispatch (ev : event) (w : world) : world :=
  match ev with
  | EvInput i v => handleInput i v w
  | EvKeydown i k => handleKeydown i k w
  | EvPaste i t => handlePaste i t w
  | EvFocus i => on_comp (set_activeInputIndex i) w
  | EvClick => if button_disabled (comp w) then w else handleSubmit w
  | EvTimer k => fire k w
  end.

(** One turn of the event loop: the handler, then the flush. *)
Definition step (w : world) (ev : event) : world :=
  flush_world (dispatch ev w).

Definition run (w : world) (evs : list event) : world := foldl step w evs.

(** The component after initialisation: every reactive statement has
    run once. *)
Definition initial_state : state :=
  clear_dirty
    (reactive_block
       (mkState (array_fill 6) 0 st_default DEFAULT_STATUS_TEXT false ""
                true "" false false)).

Definition initial : world := mkWorld initial_state [] [].

Definition lifecycle (s : state) : LifecycleState :=
  lifecycle_of (isLoading s) (currentState s).

(** *** Executions and their invariant *)

(** The six children carry the indices 0..5; no other index reaches
    a handler. *)
Definition valid_event (ev : event) : Prop :=
  match ev with
  | EvInput i _ | EvKeydown i _ | EvPaste i _ | EvFocus i => i < 6
  | EvClick | EvTimer _ => True
  end.

Inductive reachable : world → Prop :=
| reachable_initial : reachable initial
| reachable_step w ev :
    reachable w → valid_event ev → reachable (step w ev).

(** A cell is empty or holds one digit. *)
Definition cell_ok (c : string) : Prop := c = "" ∨ test_digit c = true.

(** The number of filled cells; the code is complete when it is 6. *)
Definition filled (cells : list string) : nat :=
  length (filter (λ c, truthy c = true) cells).

(** Verification calls in flight: the suspended [handleSubmit]s. *)
Definition in_flight (w : world) : nat :=
  length (filter (λ p, p.2 = ResumeSubmit) (pending w)).

(** What holds between two turns of the event loop. *)
Record Inv (w : world) : Prop := mkInv {
  inv_dirty_inputs : dirty_inputs (comp w) = false;
  inv_dirty_currentState : dirty_currentState (comp w) = false;
  inv_code : currentCode (comp w) = join (inputs (comp w));
  inv_length : length (inputs (comp w)) = 6;
  inv_cells : Forall cell_ok (inputs (comp w));
  inv_focus : activeInputIndex (comp w) ≤ 5;
  inv_error : currentState (comp w) = st_error → currentCode (comp w) = "";
  inv_button :
    isButtonDisabled (comp w)
    = bool_decide (String.length (currentCode (comp w)) < 6);
  inv_flight : in_flight w = if isLoading (comp w) then 1 else 0
}.

(** What a handler leaves behind for the flush. *)
Record PreInv (w : world) : Prop := mkPreInv {
  pre_code :
    dirty_inputs (comp w) = false →
    currentCode (comp w) = join (inputs (comp w));
  pre_length : length (inputs (comp w)) = 6;
  pre_cells : Forall cell_ok (inputs (comp w));
  pre_focus : activeInputIndex (comp w) ≤ 5;
  pre_error :
    dirty_currentState (comp w) = false →
    currentState (comp w) = st_error → currentCode (comp w) = "";
  pre_button :
    isButtonDisabled (comp w)
    = bool_decide (String.length (currentCode (comp w)) < 6);
  pre_flight : in_flight w = if isLoading (comp w) then 1 else 0
}.

(** *** Sample states *)

(** The cells of the specification's second paste example. *)
Definition cells_123456 : list string := ["1"; "2"; "3"; "4"; "5"; "6"].

Definition world_of_cells (cells : list string) : world :=
  mkWorld (mkState cells 0 st_default DEFAULT_STATUS_TEXT false
                   "Verify the code" false (join cells) false false) [] [].

(** Typing six digits, one per cell. *)
Definition type_code (a b c d e f : string) : list event :=
  [EvInput 0 a; EvInput 1 b; EvInput 2 c; EvInput 3 d; EvInput 4 e; EvInput 5 f].

(** The right code typed and the button clicked: verification is
    under way. *)
Definition verifying_events : list event :=
  type_code "1" "2" "3" "4" "5" "6" ++ [EvClick].
Definition verifying_world : world := run initial verifying_events.

(** ... and the awaited delay is over: the success screen. *)
Definition success_events : list event := verifying_events ++ [EvTimer 0].
Definition success_world : world := run initial success_events.

(** A wrong code typed and submitted, every cell emptied with
    Backspace during the wait, then the verification resumes: the
    component rests in [error] with empty cells, the 400ms timer
    still pending. *)
Definition error_events : list event :=
  type_code "1" "2" "3" "4" "5" "7"
  ++ [EvClick;
      EvKeydown 5 "Backspace"; EvKeydown 5 "Backspace"; EvKeydown 4 "Backspace";
      EvKeydown 3 "Backspace"; EvKeydown 2 "Backspace"; EvKeydown 1 "Backspace";
      EvTimer 0].
Definition error_world : world := run initial error_events.

(** A wrong code typed, nothing submitted yet. *)
Definition wrong_code_world : world :=
  run initial (type_code "1" "2" "3" "4" "5" "7").

(** Three digits typed. *)
Definition partial_world : world :=
  run initial [EvInput 0 "1"; EvInput 1 "2"; EvInput 2 "3"].

(** The right code typed, nothing submitted yet. *)
Definition correct_code_world : world :=
  run initial (type_code "1" "2" "3" "4" "5" "6").

(** A wrong code submitted and refused, and a digit typed before the
    400ms callback has fired. *)
Definition retyping_world : world :=
  run wrong_code_world [EvClick; EvTimer 0; EvInput 0 "8"].

End Controller.

(** ** The page variant *)

Module Page.
Import Js.

Definition correctCode : string := "123456".

(** The component's variables, the text of the six [.digit-display]
    elements ([digits]), and the reactive variables [digitsEntered],
    [digitsLeft] and [isCodeComplete].  CSS classes, the cursor and
    the animation timers are presentation and are left out. *)
Record state := mkState {
  digits : list string;
  currentCode : string;
  currentState : status;
  isLoading : bool;
  buttonText : string;
  statusText : string;
  isButtonDisabled : bool;
  digitsEntered : nat;
  digitsLeft : Z;
  isCodeComplete : bool;
  dirty_currentCode : bool;
  dirty_isLoading : bool;
  dirty_currentState : bool
}.

Inductive effect :=
| Focus (i : nat)        (* otpInputs[i].focus() *)
| Shake.                 (* triggerShakeAnimation() *)

Inductive task :=
| DropDigit (i : nat) (d : string)  (* animateDigitDrop(i, pastedData[i]) *)
| PasteDone (len : nat)             (* the paste's closing callback *)
| Submit                            (* () => handleSubmit() *)
| ResumeVerification.               (* simulateVerification after 1500ms *)

#[export] Instance page_task_eq_dec : EqDecision task.
Proof. solve_decision. Defined.

Record world := mkWorld {
  comp : state;
  pending : list (nat * task);
  log : list effect
}.

Definition set_digits (l : list string) (s : state) : state :=
  mkState l (currentCode s) (currentState s) (isLoading s) (buttonText s)
          (statusText s) (isButtonDisabled s) (digitsEntered s) (digitsLeft s)
          (isCodeComplete s)
          (dirty_currentCode s) (dirty_isLoading s) (dirty_currentState s).

Definition set_currentCode (c : string) (s : state) : state :=
  mkState (digits s) c (currentState s) (isLoading s) (buttonText s)
          (statusText s) (isButtonDisabled s) (digitsEntered s) (digitsLeft s)
          (isCodeComplete s)
          (dirty_currentCode s || negb (bool_decide (c = currentCode s)))
          (dirty_isLoading s) (dirty_currentState s).

Definition set_currentState (c : status) (s : state) : state :=
  mkState (digits s) (currentCode s) c (isLoading s) (buttonText s)
          (statusText s) (isButtonDisabled s) (digitsEntered s) (digitsLeft s)
          (isCodeComplete s)
          (dirty_currentCode s) (dirty_isLoading s)
          (dirty_currentState s || negb (bool_decide (c = currentState s))).

Definition set_isLoading (b : bool) (s : state) : state :=
  mkState (digits s) (currentCode s) (currentState s) b (buttonText s)
          (statusText s) (isButtonDisabled s) (digitsEntered s) (digitsLeft s)
          (isCodeComplete s)
          (dirty_currentCode s)
          (dirty_isLoading s || negb (bool_decide (b = isLoading s)))
          (dirty_currentState s).

Definition set_statusText (t : string) (s : state) : state :=
  mkState (digits s) (currentCode s) (currentState s) (isLoading s)
          (buttonText s) t (isButtonDisabled s) (digitsEntered s)
          (digitsLeft s) (isCodeComplete s)
          (dirty_currentCode s) (dirty_isLoading s) (dirty_currentState s).

Definition set_button (t : string) (disabled : bool) (s : state) : state :=
  mkState (digits s) (currentCode s) (currentState s) (isLoading s) t
          (statusText s) disabled (digitsEntered s) (digitsLeft s)
          (isCodeComplete s)
          (dirty_currentCode s) (dirty_isLoading s) (dirty_currentState s).

Definition set_reactive (de : nat) (dl : Z) (icc : bool) (s : state) : state :=
  mkState (digits s) (currentCode s) (currentState s) (isLoading s)
          (buttonText s) (statusText s) (isButtonDisabled s) de dl icc
          (dirty_currentCode s) (dirty_isLoading s) (dirty_currentState s).

Definition clear_dirty (s : state) : state :=
  mkState (digits s) (currentCode s) (currentState s) (isLoading s)
          (buttonText s) (statusText s) (isButtonDisabled s) (digitsEntered s)
          (digitsLeft s) (isCodeComplete s) false false false.

Definition on_comp (f : state → state) (w : world) : world :=
  mkWorld (f (comp w)) (pending w) (log w).

Definition emit (e : effect) (w : world) : world :=
  mkWorld (comp w) (pending w) (log w ++ [e]).

Definition setTimeout (t : task) (ms : nat) (w : world) : world :=
  mkWorld (comp w) (pending w ++ [(ms, t)]) (log w).

(** *** DOM helpers *)

(** [animateDigitDrop]: the digit becomes the text of the display,
    when the container exists. *)
Definition animateDigitDrop (index : nat) (digit : string) (s : state) : state :=
  if decide (index < length (digits s))
  then set_digits (<[index:=digit]> (digits s)) s else s.

Definition clearDigit (index : nat) (s : state) : state :=
  if decide (index < length (digits s))
  then set_digits (<[index:=""]> (digits s)) s else s.

Definition updateCurrentCode (s : state) : state :=
  set_currentCode (join (digits s)) s.

(** [setState(state, message)] *)
Definition setState (c : status) (message : string) (s : state) : state :=
  let s1 := set_currentState c s in
  if truthy message then set_statusText message s1 else s1.

(** *** Event handlers *)

Definition handleSubmit (w : world) : world :=
  if negb (isCodeComplete (comp w)) then
    on_comp (setState st_error "Please enter all 6 digits") w
  else
    setTimeout ResumeVerification 1500 (on_comp (set_isLoading true) w).

(** [simulateVerification] after its awaited delay. *)
Definition resumeVerification (w : world) : world :=
  let w1 := on_comp (set_isLoading false) w in
  if bool_decide (currentCode (comp w1) = correctCode) then
    on_comp (setState st_success DEFAULT_STATUS_TEXT) w1
  else
    emit Shake (on_comp (setState st_error DEFAULT_STATUS_TEXT) w1).

Definition handleInput (index : nat) (value : string) (w : world) : world :=
  if negb (test_digit value) then w
  else
    let w1 := on_comp (animateDigitDrop index value) w in
    let w2 := on_comp updateCurrentCode w1 in
    let w3 :=
      if truthy value && bool_decide (index < 6 - 1)
      then emit (Focus (index + 1)) w2 else w2 in
    (* the reactive isCodeComplete, as of the last flush *)
    if isCodeComplete (comp w3) then setTimeout Submit 500 w3 else w3.

Definition handleKeydown (index : nat) (key : string) (w : world) : world :=
  let w1 :=
    if bool_decide (key = "Backspace") then
      let w' :=
        if negb (truthy (array_get (digits (comp w)) index))
           && bool_decide (0 < index)
        then emit (Focus (index - 1)) (on_comp (clearDigit (index - 1)) w)
        else on_comp (clearDigit index) w in
      on_comp updateCurrentCode w'
    else w in
  let w2 :=
    if bool_decide (key = "ArrowLeft") && bool_decide (0 < index)
    then emit (Focus (index - 1)) w1 else w1 in
  let w3 :=
    if bool_decide (key = "ArrowRight") && bool_decide (index < 6 - 1)
    then emit (Focus (index + 1)) w2 else w2 in
  if bool_decide (key = "Enter") && isCodeComplete (comp w3)
  then handleSubmit w3 else w3.

Definition handlePaste (index : nat) (text : string) (w : world) : world :=
  let pastedData := strip_non_digits text in
  let len := String.length pastedData in
  if bool_decide (0 < len) then
    (* clear all existing digits first *)
    let w1 := on_comp (λ s, foldl (λ acc i, clearDigit i acc) s (seq 0 6)) w in
    (* fill from the first input, one staggered timer per digit *)
    let w2 :=
      foldl (λ acc i, setTimeout (DropDigit i (char_at pastedData i)) (i * 100) acc)
            w1 (seq 0 (len `min` 6)) in
    setTimeout (PasteDone len) (len * 100 + 200) w2
  else w.

Definition pasteDone (len : nat) (w : world) : world :=
  let w1 := on_comp updateCurrentCode w in
  let w2 := emit (Focus (len `min` (6 - 1))) w1 in
  if bool_decide (6 ≤ len) then setTimeout Submit 500 w2 else w2.

(** *** Reactive statements, in dependency order *)

Definition block (s : state) : state :=
  if isLoading s then set_button "" true s
  else if bool_decide (currentState s = st_success) then set_button "Let's go!" false s
  else if bool_decide (currentState s = st_error) then set_button "Wrong code!" false s
  else if bool_decide (digitsLeft s > 0)%Z then
    set_button (if bool_decide (digitsLeft s = 1)%Z then "1 digit left"
                else pretty (digitsLeft s) +:+ " digits left") true s
  else set_button "Verify the code" false s.

Definition flush (s : state) : state :=
  let de := if dirty_currentCode s then String.length (currentCode s)
            else digitsEntered s in
  let dl := if bool_decide (de = digitsEntered s) then digitsLeft s
            else (6 - Z.of_nat de)%Z in
  let icc := if dirty_currentCode s then test_six_digits (currentCode s)
             else isCodeComplete s in
  let dl_changed := negb (bool_decide (dl = digitsLeft s)) in
  let s1 := set_reactive de dl icc s in
  clear_dirty
    (if dirty_isLoading s || dirty_currentState s || dl_changed
     then block s1 else s1).

(** *** Events *)

Inductive event :=
| EvInput (index : nat) (value : string)
| EvKeydown (index : nat) (key : string)
| EvPaste (index : nat) (text : string)
| EvClick
| EvTimer (k : nat).

Definition run_task (t : task) (w : world) : world :=
  match t with
  | DropDigit i d => on_comp (animateDigitDrop i d) w
  | PasteDone len => pasteDone len w
  | Submit => handleSubmit w
  | ResumeVerification => resumeVerification w
  end.

Definition fire (k : nat) (w : world) : world :=
  match pending w !! k with
  | Some (_, t) => run_task t (mkWorld (comp w) (delete k (pending w)) (log w))
  | None => w
  end.

(** A paste event on input [i] reaches two listeners: the input's own
    [on:paste], and, as the event bubbles (nothing stops it), the
    document-level [handleGlobalPaste] added in [onMount], which finds
    the same input focused and calls [handlePaste] again. *)
Definition handleGlobalPaste (focusedIndex : nat) (text : string) (w : world) : world :=
  handlePaste focusedIndex text w.

(** The button carries [disabled={isButtonDisabled}]. *)
Definition dispatch (ev : event) (w : world) : world :=
  match ev with
  | EvInput i v => handleInput i v w
  | EvKeydown i k => handleKeydown i k w
  | EvPaste i t => handleGlobalPaste i t (handlePaste i t w)
  | EvClick => if isButtonDisabled (comp w) then w else handleSubmit w
  | EvTimer k => fire k w
  end.

Definition step (w : world) (ev : event) : world :=
  on_comp flush (dispatch ev w).

Definition run (w : world) (evs : list event) : world := foldl step w evs.

Definition initial_state : state :=
  clear_dirty
    (block
       (mkState (replicate 6 "") "" st_default false "6 digits left"
                DEFAULT_STATUS_TEXT true 0 6%Z false false false false)).

Definition initial : world := mkWorld initial_state [] [].

Definition lifecycle (s : state) : LifecycleState :=
  lifecycle_of (isLoading s) (currentState s).

(** Handlers scheduled to call [handleSubmit]. *)
Definition submits_scheduled (w : world) : nat :=
  length (filter (λ p, p.2 = Submit) (pending w)).

(** Verification calls in flight. *)
Definition in_flight (w : world) : nat :=
  length (filter (λ p, p.2 = ResumeVerification) (pending w)).

(** *** Sample executions *)

(** Typing six digits, one per cell. *)
Definition type_code (a b c d e f : string) : list event :=
  [EvInput 0 a; EvInput 1 b; EvInput 2 c; EvInput 3 d; EvInput 4 e; EvInput 5 f].

Definition typed_world : world :=
  run initial (type_code "1" "2" "3" "4" "5" "6").

(** The staggered timers [handlePaste] queues for the digits [a],
    ..., [a + m - 1] of the digit string [d]. *)
Definition drop_timers (d : string) (a m : nat) : list (nat * task) :=
  map (λ j, (j * 100, DropDigit j (char_at d j))) (seq a m).

(** The timers of one paste of [n] digits (at most six), fired in the
    order of their delays.  The two [handlePaste] calls have queued
    their [n] staggered timers and their closing callback one set
    after the other; those of equal delay fire in the order they were
    queued: for each digit [j] the first set's timer (at the head) and
    then the second set's (behind what is left of the first set and
    its closing callback), and at the end the two closing callbacks. *)
Definition paste_timers (n : nat) : list event :=
  flat_map (λ j, [EvTimer 0; EvTimer (n - j)]) (seq 0 n)
  ++ [EvTimer 0; EvTimer 0].

(** Pasting six digits and letting the paste timers fire. *)
Definition pasted_world : world :=
  run initial (EvPaste 0 "123456" :: paste_timers 6).

(** Cells 1-2-3-4-5-6 on screen, then "99" pasted into cell 4 and
    the paste timers fired. *)
Definition pasted_99_world : world :=
  run typed_world (EvPaste 4 "99" :: paste_timers 2).


(** The right code typed and Enter pressed: verification is under way. *)
Definition verifying_world : world := run typed_world [EvKeydown 5 "Enter"].

(** A wrong code typed, submitted with a click and refused. *)
Definition error_world : world :=
  run initial (type_code "1" "2" "3" "4" "5" "7" ++ [EvClick; EvTimer 0]).

(** *** Executions and their invariant *)

(** The six inputs carry the indices 0..5. *)
Definition valid_event (ev : event) : Prop :=
  match ev with
  | EvInput i _ | EvKeydown i _ | EvPaste i _ => i < 6
  | EvClick | EvTimer _ => True
  end.

Inductive reachable : world → Prop :=
| reachable_initial : reachable initial
| reachable_step w ev :
    reachable w → valid_event ev → reachable (step w ev).

(** A staggered paste timer carries one digit. *)
Definition task_ok (t : task) : Prop :=
  match t with
  | DropDigit _ d => Controller.cell_ok d
  | _ => True
  end.

(** What holds between two turns of the event loop: nothing is dirty,
    the reactive variables are up to date, and the block would not
    change the button. *)
Record Inv (w : world) : Prop := mkInv {
  inv_dirty_currentCode : dirty_currentCode (comp w) = false;
  inv_dirty_isLoading : dirty_isLoading (comp w) = false;
  inv_dirty_currentState : dirty_currentState (comp w) = false;
  inv_entered : digitsEntered (comp w) = String.length (currentCode (comp w));
  inv_left : digitsLeft (comp w) = (6 - Z.of_nat (digitsEntered (comp w)))%Z;
  inv_complete : isCodeComplete (comp w) = test_six_digits (currentCode (comp w));
  inv_block : block (comp w) = comp w;
  inv_length : length (digits (comp w)) = 6;
  inv_cells : Forall Controller.cell_ok (digits (comp w));
  inv_tasks : Forall (λ p, task_ok p.2) (pending w)
}.

(** What a handler leaves behind for the flush. *)
Record PreInv (w : world) : Prop := mkPreInv {
  pre_entered :
    dirty_currentCode (comp w) = false →
    digitsEntered (comp w) = String.length (currentCode (comp w))
    ∧ isCodeComplete (comp w) = test_six_digits (currentCode (comp w));
  pre_left : digitsLeft (comp w) = (6 - Z.of_nat (digitsEntered (comp w)))%Z;
  pre_block :
    dirty_isLoading (comp w) = false → dirty_currentState (comp w) = false →
    block (comp w) = comp w;
  pre_length : length (digits (comp w)) = 6;
  pre_cells : Forall Controller.cell_ok (digits (comp w));
  pre_tasks : Forall (λ p, task_ok p.2) (pending w)
}.

(** The cells a paste of the digit string [d] ends with, once [k] of
    its staggered timers have fired. *)
Definition pasted_digits (d : string) (k : nat) : list string :=
  map (char_at d) (seq 0 k) ++ replicate (6 - k) "".

End Page.

(** ** The cell component *)

Module Cell.
Import Js.

(** The props of one [OtpInput]. *)
Record props := mkProps {
  value : string;
  isFocused : bool;
  hasError : bool;
  index : nat
}.

(** [class:name={condition}] directives: the classes that are on. *)
Definition on_classes (directives : list (string * bool)) : list string :=
  (filter (λ d, d.2 = true) directives).*1.

(** The border of the cell. *)
Definition border_classes (p : props) : list string :=
  on_classes
    [("border-primary-main", isFocused p && negb (hasError p));
     ("border-error-main", hasError p);
     ("border-neutral-border", negb (isFocused p) && negb (hasError p))].

(** The colour and the opacity of the digit. *)
Definition digit_classes (p : props) : list string :=
  on_classes
    [("text-error-main", hasError p);
     ("text-primary-main", negb (hasError p));
     ("opacity-100", truthy (value p));
     ("opacity-0", negb (truthy (value p)))].

(** The condition under which [underlineClasses] makes the cursor
    line visible. *)
Definition underline_shown (p : props) : bool :=
  isFocused p && negb (truthy (value p)) && negb (hasError p).

End Cell.

(** ** The controller's markup: one cell component per input *)

Module View.
Import Js Controller.

(** [{#each inputs as value, i} <OtpInput {value} index={i}
    isFocused={i === activeInputIndex}
    hasError={currentState === 'error'} />] *)
Definition render (s : state) : list Cell.props :=
  imap (λ i value,
          Cell.mkProps value
                       (bool_decide (i = activeInputIndex s))
                       (bool_decide (currentState s = st_error))
                       i)
       (inputs s).

End View.

(** * Properties *)

(** ** Strings and arrays *)

Module JsFacts.
Import Js.

Lemma length_append (a b : string) :
  String.length (a +:+ b) = String.length a + String.length b.
Proof. induction a as [|c a IH]; simpl; [done | by rewrite IH]. Qed.

(** [/^\d$/] accepts exactly the ten one-digit strings. *)
Lemma test_digit_spec (v : string) :
  test_digit v = true
  ↔ v ∈ ["0"; "1"; "2"; "3"; "4"; "5"; "6"; "7"; "8"; "9"].
Proof.
  split.
  - destruct v as [|c [|c' r]]; simpl; try discriminate.
    intros H.
    destruct c as [[] [] [] [] [] [] [] []];
      vm_compute in H; try discriminate H; clear H; repeat constructor.
  - intros H.
    repeat (apply elem_of_cons in H as [->|H]; [reflexivity|]).
    by apply elem_of_nil in H.
Qed.

Lemma test_digit_length (v : string) :
  test_digit v = true → String.length v = 1.
Proof. destruct v as [|c [|c' r]]; simpl; by try discriminate. Qed.

Lemma test_digit_truthy (v : string) : test_digit v = true → truthy v = true.
Proof. destruct v; simpl; by try discriminate. Qed.

Lemma truthy_spec (v : string) : truthy v = true ↔ v ≠ "".
Proof. destruct v; simpl; split; intros; done. Qed.

Lemma truthy_false (v : string) : truthy v = false ↔ v = "".
Proof. destruct v; simpl; split; intros; done. Qed.

(** What [replace(/\D/g, '')] leaves is made of digits, and a string
    of digits is left alone. *)
Lemma all_digits_strip (s : string) : all_digits (strip_non_digits s) = true.
Proof.
  induction s as [|c s IH]; simpl; [done|].
  destruct (is_digit c) eqn:Hc; simpl; [by rewrite Hc | done].
Qed.

Lemma strip_all_digits (s : string) :
  all_digits s = true → strip_non_digits s = s.
Proof.
  induction s as [|c s IH]; simpl; [done|].
  intros [Hc Hs]%andb_prop. rewrite Hc. by rewrite IH.
Qed.

(** [replace(/\D/g, '')] keeps exactly the digit characters, in
    their order. *)
Lemma strip_non_digits_spec (s : string) :
  list_ascii_of_string (strip_non_digits s)
  = List.filter is_digit (list_ascii_of_string s).
Proof.
  induction s as [|c s IH]; simpl; [done|].
  destruct (is_digit c); simpl; by rewrite IH.
Qed.

Lemma char_at_get (d : string) (i : nat) :
  all_digits d = true → i < String.length d →
  ∃ c, String.get i d = Some c ∧ is_digit c = true
       ∧ char_at d i = String c EmptyString.
Proof.
  revert i. induction d as [|a d IH]; simpl; intros i Hd Hi; [lia|].
  apply andb_prop in Hd as [Ha Hd].
  destruct i as [|i].
  - exists a. done.
  - destruct (IH i Hd ltac:(lia)) as (c & Hg & Hc & Hch).
    exists c. unfold char_at in *. simpl. by rewrite Hg in *.
Qed.

Lemma length_strip_le (s : string) :
  String.length (strip_non_digits s) ≤ String.length s.
Proof.
  induction s as [|c s IH]; simpl; [done|].
  destruct (is_digit c); simpl; lia.
Qed.

Lemma char_at_digit (d : string) (i : nat) :
  all_digits d = true → i < String.length d → test_digit (char_at d i) = true.
Proof.
  revert i. induction d as [|c d IH]; simpl; intros i Hd Hi; [lia|].
  apply andb_prop in Hd as [Hc Hd].
  destruct i as [|i]; unfold char_at; simpl; [done|].
  apply (IH i Hd). lia.
Qed.

Lemma array_set_lt (l : list string) (i : nat) (v : string) :
  i < length l → array_set l i v = <[i:=v]> l.
Proof. intros H. unfold array_set. by rewrite decide_True. Qed.

Lemma delete_snoc {A} (l : list A) (x : A) :
  delete (List.length l) (l ++ [x]) = l.
Proof. induction l as [|y l IH]; simpl; [done | by rewrite IH]. Qed.

Lemma lookup_snoc {A} (l : list A) (x : A) :
  (l ++ [x]) !! List.length l = Some x.
Proof. induction l as [|y l IH]; simpl; done. Qed.

End JsFacts.

(** ** The controller variant: what each handler does *)

Module ControllerFacts.
Import Js JsFacts Controller.

(** *** The paste loop *)

Lemma paste_cells_S (d : string) (index n : nat) (cells : list string) :
  paste_cells d index (S n) cells
  = array_set (paste_cells d index n cells) (index + n) (char_at d n).
Proof. unfold paste_cells. by rewrite seq_S, foldl_snoc. Qed.

Lemma paste_cells_length (d : string) (index n : nat) (cells : list string) :
  index + n ≤ length cells →
  length (paste_cells d index n cells) = length cells.
Proof.
  induction n as [|n IH]; intros Hn; [done|].
  rewrite paste_cells_S, array_set_lt by (rewrite IH; lia).
  rewrite length_insert. apply IH. lia.
Qed.

Lemma paste_cells_written (d : string) (index n : nat) (cells : list string) (i : nat) :
  index + n ≤ length cells → i < n →
  paste_cells d index n cells !! (index + i) = Some (char_at d i).
Proof.
  induction n as [|n IH]; intros Hn Hi; [lia|].
  rewrite paste_cells_S, array_set_lt by (rewrite paste_cells_length; lia).
  destruct (decide (i = n)) as [->|Hne].
  - apply list_lookup_insert_eq. rewrite paste_cells_length; lia.
  - rewrite list_lookup_insert_ne by lia. apply IH; lia.
Qed.

Lemma paste_cells_frame (d : string) (index n : nat) (cells : list string) (j : nat) :
  index + n ≤ length cells → j < index ∨ index + n ≤ j →
  paste_cells d index n cells !! j = cells !! j.
Proof.
  induction n as [|n IH]; intros Hn Hj; [done|].
  rewrite paste_cells_S, array_set_lt by (rewrite paste_cells_length; lia).
  rewrite list_lookup_insert_ne by lia. apply IH; lia.
Qed.

Lemma paste_cells_ok (d : string) (index n : nat) (cells : list string) :
  all_digits d = true → n ≤ String.length d → index + n ≤ length cells →
  Forall cell_ok cells → Forall cell_ok (paste_cells d index n cells).
Proof.
  intros Hd. induction n as [|n IH]; intros Hn Hlen Hcells; [done|].
  rewrite paste_cells_S, array_set_lt by (rewrite paste_cells_length; lia).
  apply Forall_insert; [apply IH; [lia | lia | done]|].
  right. apply char_at_digit; [done | lia].
Qed.

(** C1. [handlePaste] strips the non-digits of the pasted text: the
    string [d] it works with is made of the digit characters of the
    text, in their order, and of nothing else.  When [d] is empty it
    changes nothing; otherwise it writes the characters of [d], each a
    digit, into the cells from [index] on, as many as fit in the six
    cells, leaves the cells before [index] as they were, and moves the
    focus to [min (index + len) 5]. *)
Theorem handlePaste_spec (w : world) (index : nat) (rawText : string) :
  index ≤ 5 → length (inputs (comp w)) = 6 →
  let d := strip_non_digits rawText in
  let w' := handlePaste index rawText w in
  list_ascii_of_string d
  = List.filter is_digit (list_ascii_of_string rawText) ∧
  (d = "" → w' = w) ∧
  (d ≠ "" →
     length (inputs (comp w')) = 6 ∧
     (∀ i, i < String.length d `min` (6 - index) →
           inputs (comp w') !! (index + i) = Some (char_at d i) ∧
           ∃ c, String.get i d = Some c ∧ is_digit c = true
                ∧ inputs (comp w') !! (index + i)
                  = Some (String c EmptyString)) ∧
     (∀ j, j < index → inputs (comp w') !! j = inputs (comp w) !! j) ∧
     activeInputIndex (comp w') = (index + String.length d) `min` 5).
Proof.
  intros Hidx Hlen d w'. subst d w'.
  split; [apply strip_non_digits_spec|].
  unfold handlePaste.
  split.
  - intros ->. done.
  - intros Hd. apply truthy_spec in Hd. rewrite Hd. simpl.
    set (d := strip_non_digits rawText).
    assert (Hn : (index + String.length d) `min` 6 - index
                 = String.length d `min` (6 - index)) by lia.
    rewrite Hn.
    split; [|split; [|split]].
    + rewrite paste_cells_length; [done | lia].
    + intros i Hi.
      assert (Hw : paste_cells d index (String.length d `min` (6 - index))
                     (inputs (comp w)) !! (index + i) = Some (char_at d i))
        by (apply paste_cells_written; [lia | done]).
      split; [done|].
      destruct (char_at_get d i (all_digits_strip rawText) ltac:(lia))
        as (c & Hg & Hc & Hch).
      exists c. by rewrite Hw, Hch.
    + intros j Hj. apply paste_cells_frame; [lia | by left].
    + lia.
Qed.

Lemma handlePaste_spec_witness :
  list_ascii_of_string (strip_non_digits "9a-9") = ["9"; "9"]%char
  ∧ inputs (comp (handlePaste 4 "9a-9" (world_of_cells cells_123456)))
    = ["1"; "2"; "3"; "4"; "9"; "9"]
  ∧ inputs (comp (handlePaste 4 "99" (world_of_cells cells_123456)))
    = ["1"; "2"; "3"; "4"; "9"; "9"]
  ∧ handlePaste 4 "a-b" (world_of_cells cells_123456)
    = world_of_cells cells_123456.
Proof.
  destruct (handlePaste_spec (world_of_cells cells_123456) 4 "9a-9")
    as (Hd & _ & H); [lia | reflexivity |].
  destruct (handlePaste_spec (world_of_cells cells_123456) 4 "99")
    as (_ & _ & H'); [lia | reflexivity |].
  destruct (handlePaste_spec (world_of_cells cells_123456) 4 "a-b")
    as (_ & He & _); [lia | reflexivity |].
  destruct H as (Hlen & Hw & Hf & _); [discriminate|].
  destruct H' as (Hlen' & Hw' & Hf' & _); [discriminate|].
  split; [exact Hd|]. split; [|split; [|exact (He eq_refl)]].
  - apply list_eq. intros [|[|[|[|[|[|j]]]]]].
    + rewrite (Hf 0) by lia. reflexivity.
    + rewrite (Hf 1) by lia. reflexivity.
    + rewrite (Hf 2) by lia. reflexivity.
    + rewrite (Hf 3) by lia. reflexivity.
    + destruct (Hw 0 ltac:(simpl; lia)) as (_ & c & Hg & _ & Hc).
      injection Hg as <-. exact Hc.
    + destruct (Hw 1 ltac:(simpl; lia)) as (_ & c & Hg & _ & Hc).
      injection Hg as <-. exact Hc.
    + rewrite !lookup_ge_None_2; [done | simpl; lia | rewrite Hlen; lia].
  - apply list_eq. intros [|[|[|[|[|[|j]]]]]].
    + rewrite (Hf' 0) by lia. reflexivity.
    + rewrite (Hf' 1) by lia. reflexivity.
    + rewrite (Hf' 2) by lia. reflexivity.
    + rewrite (Hf' 3) by lia. reflexivity.
    + exact (proj1 (Hw' 0 ltac:(simpl; lia))).
    + exact (proj1 (Hw' 1 ltac:(simpl; lia))).
    + rewrite !lookup_ge_None_2; [done | simpl; lia | rewrite Hlen'; lia].
Defined.

(** The first paste example of the specification. *)
Example handlePaste_strips :
  inputs (comp (handlePaste 0 "1a2b3c4d5e6f" initial)) = cells_123456.
Proof. reflexivity. Qed.

(** *** Backspace *)

(** C7. Backspace on a filled cell empties it and leaves the focus
    where it is; on an empty cell other than the first it empties the
    cell before and then moves the focus there. *)
Theorem handleBackspace_spec (w : world) (index : nat) :
  index < 6 → length (inputs (comp w)) = 6 →
  let cells := inputs (comp w) in
  let w' := handleKeydown index "Backspace" w in
  (array_get cells index ≠ "" →
     inputs (comp w') = <[index:=""]> cells ∧
     activeInputIndex (comp w') = activeInputIndex (comp w) ∧
     log w' = log w) ∧
  (array_get cells index = "" → 0 < index →
     w' = on_comp (λ s, set_inputs (inputs s) s)
            (move_focus (index - 1)
               (on_comp (set_inputs (<[index - 1:=""]> cells)) w)) ∧
     inputs (comp w') = <[index - 1:=""]> cells ∧
     activeInputIndex (comp w') = index - 1 ∧
     log w' = log w ++ [Focus (index - 1)]).
Proof.
  intros Hidx Hlen cells w'. subst cells w'. unfold handleKeydown.
  rewrite bool_decide_true by done.
  split.
  - intros Hne. apply truthy_spec in Hne. rewrite Hne.
    rewrite array_set_lt by lia. done.
  - intros He Hpos. apply truthy_false in He. rewrite He.
    rewrite decide_True by done.
    rewrite array_set_lt by lia. done.
Qed.

Lemma handleBackspace_spec_witness :
  let w := world_of_cells ["1"; "2"; ""; ""; ""; ""] in
  inputs (comp (handleKeydown 1 "Backspace" w)) = ["1"; ""; ""; ""; ""; ""]
  ∧ inputs (comp (handleKeydown 2 "Backspace" w)) = ["1"; ""; ""; ""; ""; ""]
  ∧ activeInputIndex (comp (handleKeydown 2 "Backspace" w)) = 1.
Proof.
  intros w.
  pose proof (handleBackspace_spec w 1 ltac:(lia) eq_refl) as [H1 _].
  pose proof (handleBackspace_spec w 2 ltac:(lia) eq_refl) as [_ H2].
  destruct H1 as (H1 & _); [discriminate|].
  destruct H2 as (_ & H2 & H3 & _); [reflexivity | lia |].
  split; [exact H1 | split; [exact H2 | exact H3]].
Defined.

(** *** Typing a character *)

(** C8. A value that is not exactly one digit is dropped: nothing
    changes.  A digit is stored in its cell; before the last cell the
    focus moves one cell on, at the last cell it stays. *)
Theorem handleInput_spec :
  (∀ (w : world) (i : nat) (c : string),
      test_digit c = false → handleInput i c w = w) ∧
  (∀ (w : world) (i : nat) (d : string),
      test_digit d = true → i < 6 → length (inputs (comp w)) = 6 →
      let w' := handleInput i d w in
      inputs (comp w') !! i = Some d ∧
      (i < 5 → activeInputIndex (comp w') = i + 1) ∧
      (i = 5 → activeInputIndex (comp w') = activeInputIndex (comp w)
               ∧ log w' = log w)).
Proof.
  split.
  - intros w i c Hc. unfold handleInput. by rewrite Hc.
  - intros w i d Hd Hi Hlen w'. subst w'. unfold handleInput.
    rewrite Hd. simpl. rewrite array_set_lt by lia.
    destruct (decide (i < 5)) as [H5|H5]; simpl.
    + split; [apply list_lookup_insert_eq; lia|]. split; [done | lia].
    + split; [apply list_lookup_insert_eq; lia|]. split; [lia | done].
Qed.

Lemma handleInput_spec_witness :
  handleInput 2 "x" initial = initial
  ∧ handleInput 2 "12" initial = initial
  ∧ inputs (comp (handleInput 2 "7" initial)) !! 2 = Some "7"
  ∧ activeInputIndex (comp (handleInput 2 "7" initial)) = 3
  ∧ activeInputIndex (comp (handleInput 5 "7" (on_comp (set_activeInputIndex 5) initial))) = 5.
Proof.
  destruct handleInput_spec as [Hbad Hgood].
  split; [exact (Hbad initial 2 "x" eq_refl)|].
  split; [exact (Hbad initial 2 "12" eq_refl)|].
  destruct (Hgood initial 2 "7" eq_refl ltac:(lia) eq_refl) as (Hc & Hf & _).
  split; [exact Hc|]. split; [exact (Hf ltac:(lia))|].
  destruct (Hgood (on_comp (set_activeInputIndex 5) initial) 5 "7"
              eq_refl ltac:(lia) eq_refl) as (_ & _ & Hl).
  exact (proj1 (Hl eq_refl)).
Defined.

(** The call of [handleInput] itself: storing a digit in cell [i]
    touches no other cell and assigns neither [currentState] nor
    [isLoading]. *)
Theorem handleInput_frame (w : world) (i j : nat) (d : string) :
  test_digit d = true → i < length (inputs (comp w)) → j ≠ i →
  let w' := handleInput i d w in
  inputs (comp w') !! j = inputs (comp w) !! j
  ∧ lifecycle (comp w') = lifecycle (comp w)
  ∧ currentState (comp w') = currentState (comp w)
  ∧ isLoading (comp w') = isLoading (comp w).
Proof.
  intros Hd Hi Hj w'. subst w'. unfold handleInput.
  rewrite Hd. simpl. rewrite array_set_lt by done.
  destruct (decide (i < 5)); simpl;
    (split; [by apply list_lookup_insert_ne | done]).
Qed.

Lemma handleInput_frame_witness :
  let w := world_of_cells cells_123456 in
  inputs (comp (handleInput 2 "9" w)) !! 4 = Some "5"
  ∧ lifecycle (comp (handleInput 2 "9" w)) = Idle.
Proof.
  intros w.
  destruct (handleInput_frame w 2 4 "9" eq_refl ltac:(simpl; lia) ltac:(lia))
    as (Hc & Hl & _).
  split; [exact Hc | exact Hl].
Defined.

(** *** The reactive flush *)

Lemma reactive_block_fields (s : state) :
  inputs (reactive_block s) = inputs s
  ∧ activeInputIndex (reactive_block s) = activeInputIndex s
  ∧ isLoading (reactive_block s) = isLoading s
  ∧ currentCode (reactive_block s) = currentCode s
  ∧ isButtonDisabled (reactive_block s)
    = bool_decide (String.length (currentCode s) < 6)
  ∧ currentState (reactive_block s)
    = (if bool_decide (currentState s = st_error)
          && bool_decide (0 < String.length (currentCode s))
       then st_default else currentState s)
  ∧ (statusText s = DEFAULT_STATUS_TEXT →
     statusText (reactive_block s) = DEFAULT_STATUS_TEXT).
Proof.
  unfold reactive_block.
  destruct s as [cells ai cs st ld bt bd cc di dc]; simpl.
  repeat case_bool_decide; simpl; repeat split; try done;
    try (symmetry; apply bool_decide_eq_true_2; lia);
    try (symmetry; apply bool_decide_eq_false_2; lia);
    try lia.
Qed.

Lemma flush_fields (s : state) :
  inputs (flush s) = inputs s
  ∧ activeInputIndex (flush s) = activeInputIndex s
  ∧ isLoading (flush s) = isLoading s
  ∧ currentCode (flush s)
    = (if dirty_inputs s then join (inputs s) else currentCode s)
  ∧ dirty_inputs (flush s) = false
  ∧ dirty_currentState (flush s) = false.
Proof.
  unfold flush.
  destruct (reactive_block_fields
              (set_currentCode
                 (if dirty_inputs s then join (inputs s) else currentCode s) s))
    as (Hi & Ha & Hl & Hc & _).
  destruct (_ || _); simpl; [|done].
  rewrite Hi, Ha, Hl, Hc. done.
Qed.

(** A flush with nothing invalidated changes nothing. *)
Lemma flush_clean (s : state) :
  dirty_inputs s = false → dirty_currentState s = false → flush s = s.
Proof.
  destruct s as [cells ai cs st ld bt bd cc di dc]; simpl.
  intros -> ->. unfold flush; simpl.
  by rewrite bool_decide_true.
Qed.

(** The block revisits the lifecycle only to leave [error]. *)
Lemma flush_currentState (s : state) :
  currentState (flush s) = currentState s
  ∨ (currentState s = st_error ∧ currentState (flush s) = st_default).
Proof.
  unfold flush.
  set (s1 := set_currentCode _ s).
  destruct (reactive_block_fields s1) as (_ & _ & _ & _ & _ & Hs & _).
  destruct (_ || _); simpl; [|by left].
  rewrite Hs. subst s1. simpl.
  destruct (bool_decide (currentState s = st_error)) eqn:He; simpl; [|by left].
  apply bool_decide_eq_true in He.
  clear Hs. case_bool_decide; [right; by split | by left].
Qed.

Lemma length_zero (c : string) : String.length c = 0 → c = "".
Proof. destruct c; simpl; [done | lia]. Qed.

Lemma flush_button_error (s : state) :
  isButtonDisabled s = bool_decide (String.length (currentCode s) < 6) →
  (dirty_currentState s = false → currentState s = st_error → currentCode s = "") →
  isButtonDisabled (flush s)
  = bool_decide (String.length (currentCode (flush s)) < 6)
  ∧ (currentState (flush s) = st_error → currentCode (flush s) = "").
Proof.
  intros Hbtn Herr. unfold flush.
  set (code := if dirty_inputs s then join (inputs s) else currentCode s).
  destruct (reactive_block_fields (set_currentCode code s))
    as (_ & _ & _ & Hc & Hb & Hs & _).
  simpl in Hc, Hb, Hs.
  destruct (negb (bool_decide (code = currentCode s)) || dirty_currentState s)
    eqn:Hrun; simpl.
  - rewrite Hc, Hb, Hs. split; [done|].
    destruct (bool_decide (currentState s = st_error)) eqn:He; simpl.
    + destruct (decide (0 < String.length code)) as [Hl|Hl].
      * by rewrite bool_decide_true.
      * intros _. apply length_zero. lia.
    + apply bool_decide_eq_false in He. done.
  - apply orb_false_elim in Hrun as [Hsame Hclean].
    apply negb_false_iff, bool_decide_eq_true in Hsame.
    rewrite Hsame. split; [done|]. by apply Herr.
Qed.

(** [pending] counted by a predicate, under [setTimeout] and firing. *)
Lemma length_filter_snoc {A} (P : A → Prop) `{!∀ x, Decision (P x)}
    (l : list A) (x : A) :
  length (filter P (l ++ [x]))
  = length (filter P l) + (if decide (P x) then 1 else 0).
Proof.
  rewrite filter_app, length_app. f_equal.
  rewrite filter_cons, filter_nil. by destruct (decide (P x)).
Qed.

Lemma length_filter_delete {A} (P : A → Prop) `{!∀ x, Decision (P x)}
    (l : list A) (k : nat) (x : A) :
  l !! k = Some x →
  length (filter P (delete k l)) + (if decide (P x) then 1 else 0)
  = length (filter P l).
Proof.
  revert k. induction l as [|y l IH]; intros k Hk; [done|].
  destruct k as [|k]; simpl in *.
  - injection Hk as ->. rewrite filter_cons.
    destruct (decide (P x)); simpl; lia.
  - rewrite !filter_cons. specialize (IH k Hk).
    destruct (decide (P y)); simpl; lia.
Qed.

Lemma in_flight_setTimeout (t : task) (ms : nat) (w : world) :
  in_flight (setTimeout t ms w)
  = in_flight w + (if decide (t = ResumeSubmit) then 1 else 0).
Proof.
  unfold in_flight, setTimeout; simpl. rewrite length_filter_snoc; simpl.
  by repeat case_decide.
Qed.

(** *** The invariant *)

Lemma Inv_initial : Inv initial.
Proof.
  split; try reflexivity; simpl.
  - repeat constructor.
  - lia.
Qed.

Lemma PreInv_flush (w : world) : PreInv w → Inv (flush_world w).
Proof.
  intros [Hcode Hlen Hcells Hfocus Herr Hbtn Hfl].
  destruct (flush_fields (comp w)) as (Hi & Ha & Hl & Hc & Hdi & Hdc).
  destruct (flush_button_error (comp w) Hbtn Herr) as [Hb He].
  assert (Hcomp : comp (flush_world w) = flush (comp w)) by done.
  assert (Hpend : in_flight (flush_world w) = in_flight w) by done.
  split; rewrite ?Hcomp, ?Hpend; try done.
  - rewrite Hc, Hi. destruct (dirty_inputs (comp w)); [done | by apply Hcode].
  - by rewrite Hi.
  - by rewrite Hi.
  - by rewrite Ha.
  - by rewrite Hl.
Qed.

(** A handler that only edits the cells and the focus. *)
Lemma PreInv_edit (w w' : world) :
  Inv w →
  pending w' = pending w →
  currentState (comp w') = currentState (comp w) →
  dirty_currentState (comp w') = dirty_currentState (comp w) →
  isLoading (comp w') = isLoading (comp w) →
  isButtonDisabled (comp w') = isButtonDisabled (comp w) →
  currentCode (comp w') = currentCode (comp w) →
  (dirty_inputs (comp w') = false → inputs (comp w') = inputs (comp w)) →
  length (inputs (comp w')) = 6 →
  Forall cell_ok (inputs (comp w')) →
  activeInputIndex (comp w') ≤ 5 →
  PreInv w'.
Proof.
  intros [] Hp Hs Hd Hl Hb Hc Hi Hlen Hcells Hfocus.
  split; try done.
  - intros Hclean. rewrite Hc, (Hi Hclean). done.
  - rewrite Hs, Hc. auto.
  - by rewrite Hb, Hc.
  - unfold in_flight in *. by rewrite Hp, Hl.
Qed.

Lemma Inv_PreInv (w : world) : Inv w → PreInv w.
Proof. intros H. apply (PreInv_edit w w H); try done; by destruct H. Qed.

Lemma handleInput_PreInv (w : world) (i : nat) (v : string) :
  Inv w → i < 6 → PreInv (handleInput i v w).
Proof.
  intros H Hi. pose proof H as [].
  unfold handleInput.
  destruct (test_digit v) eqn:Hv; simpl; [|by apply Inv_PreInv].
  rewrite array_set_lt by lia.
  assert (Forall cell_ok (<[i:=v]> (inputs (comp w))))
    by (apply Forall_insert; [done | by right]).
  destruct (decide (i < 5)); apply (PreInv_edit w); simpl;
    try done; try (by rewrite length_insert); try lia.
Qed.

Lemma handleKeydown_PreInv (w : world) (i : nat) (key : string) :
  Inv w → i < 6 → PreInv (handleKeydown i key w).
Proof.
  intros H Hi. pose proof H as [].
  assert (∀ j, Forall cell_ok (<[j:=""]> (inputs (comp w))))
    by (intros j; apply Forall_insert; [done | by left]).
  unfold handleKeydown.
  destruct (bool_decide (key = "Backspace")).
  - destruct (truthy _); [|destruct (decide (0 < i))];
      rewrite ?array_set_lt by lia;
      apply (PreInv_edit w); simpl;
      try done; try (by rewrite length_insert); try lia.
  - destruct (bool_decide (key = "ArrowLeft") && bool_decide (0 < i));
      [apply (PreInv_edit w); simpl; try done; lia|].
    destruct (bool_decide (key = "ArrowRight") && bool_decide (i < 5)) eqn:Hr;
      [|by apply Inv_PreInv].
    apply andb_prop in Hr as [_ Hr%bool_decide_eq_true].
    apply (PreInv_edit w); simpl; try done; lia.
Qed.

Lemma handlePaste_PreInv (w : world) (i : nat) (text : string) :
  Inv w → i < 6 → PreInv (handlePaste i text w).
Proof.
  intros H Hi. pose proof H as [].
  unfold handlePaste.
  destruct (truthy _); simpl; [|by apply Inv_PreInv].
  apply (PreInv_edit w); simpl; try done.
  - rewrite paste_cells_length; [done | lia].
  - apply paste_cells_ok; [apply all_digits_strip | lia | lia | done].
  - lia.
Qed.

Lemma handleSubmit_PreInv (w : world) :
  Inv w → isLoading (comp w) = false → PreInv (handleSubmit w).
Proof.
  intros H Hl. pose proof H as [].
  unfold handleSubmit.
  destruct (bool_decide (String.length (currentCode (comp w)) = 6));
    simpl; [|by apply Inv_PreInv].
  split; simpl; try done.
  rewrite in_flight_setTimeout. simpl.
  unfold in_flight in *; simpl. rewrite inv_flight0, Hl. done.
Qed.

Lemma fire_PreInv (w : world) (k : nat) : Inv w → PreInv (fire k w).
Proof.
  intros H. pose proof H as [].
  unfold fire.
  destruct (pending w !! k) as [[ms t]|] eqn:Hk; [|by apply Inv_PreInv].
  pose proof (length_filter_delete (λ p, p.2 = ResumeSubmit) _ _ _ Hk) as Hdel.
  simpl in Hdel. unfold in_flight in inv_flight0.
  destruct t; simpl.
  - (* the suspended handleSubmit resumes *)
    rewrite decide_True in Hdel by done.
    destruct (isLoading (comp w)) eqn:Hload; [|lia].
    assert (Hnone : length (filter (λ p : nat * task, p.2 = ResumeSubmit)
                                   (delete k (pending w))) = 0) by lia.
    unfold resumeSubmit; simpl.
    destruct (bool_decide (currentCode (comp w) = CORRECT_CODE)); simpl.
    + split; simpl; try done.
    + split; simpl; try done.
      * rewrite inv_dirty_currentState0. simpl.
        intros Hs%negb_false_iff%bool_decide_eq_true _. by apply inv_error0.
      * unfold in_flight; simpl. rewrite length_filter_snoc; simpl. lia.
  - (* the cells are emptied *)
    rewrite decide_False in Hdel by done.
    unfold clearInputs; simpl. split; simpl; try done.
    + by apply Forall_replicate; left.
    + lia.
    + unfold in_flight; simpl. rewrite <- inv_flight0. lia.
Qed.

Lemma dispatch_PreInv (w : world) (ev : event) :
  Inv w → valid_event ev → PreInv (dispatch ev w).
Proof.
  intros H Hev. destruct ev as [i v|i k|i t|i| |k]; simpl in *.
  - by apply handleInput_PreInv.
  - by apply handleKeydown_PreInv.
  - by apply handlePaste_PreInv.
  - pose proof H as []. apply (PreInv_edit w); simpl; try done. lia.
  - unfold button_disabled.
    destruct (isButtonDisabled (comp w)); simpl; [by apply Inv_PreInv|].
    destruct (isLoading (comp w)) eqn:Hl; [by apply Inv_PreInv|].
    by apply handleSubmit_PreInv.
  - by apply fire_PreInv.
Qed.

Lemma Inv_step (w : world) (ev : event) :
  Inv w → valid_event ev → Inv (step w ev).
Proof. intros H Hev. apply PreInv_flush. by apply dispatch_PreInv. Qed.

Lemma reachable_Inv (w : world) : reachable w → Inv w.
Proof.
  induction 1 as [|w ev _ IH Hev]; [apply Inv_initial | by apply Inv_step].
Qed.

Lemma reachable_run (w : world) (evs : list event) :
  reachable w → Forall valid_event evs → reachable (run w evs).
Proof.
  intros Hw Hevs. revert w Hw.
  induction Hevs as [|ev evs Hev _ IH]; intros w Hw; [done|].
  simpl. apply IH. by apply reachable_step.
Qed.

(** *** The code and the count of filled cells *)

Lemma filled_cons (c : string) (l : list string) :
  filled (c :: l) = (if truthy c then 1 else 0) + filled l.
Proof.
  unfold filled. rewrite filter_cons.
  destruct (truthy c); simpl; done.
Qed.

Lemma filled_join (l : list string) :
  Forall cell_ok l → String.length (join l) = filled l.
Proof.
  induction 1 as [|c l [->|Hc] _ IH]; [done| |].
  - rewrite filled_cons. simpl. done.
  - rewrite filled_cons. simpl.
    rewrite length_append, (test_digit_length _ Hc), (test_digit_truthy _ Hc).
    by rewrite IH.
Qed.

Lemma length_join_lookup (l : list string) (i : nat) (v : string) :
  l !! i = Some v → String.length v ≤ String.length (join l).
Proof.
  revert i. induction l as [|c l IH]; intros i Hi; [done|].
  simpl. rewrite length_append.
  destruct i as [|i]; simpl in Hi.
  - injection Hi as ->. lia.
  - specialize (IH i Hi). lia.
Qed.

Lemma lifecycle_Verifying (s : state) :
  lifecycle s = Verifying ↔ isLoading s = true.
Proof.
  unfold lifecycle, lifecycle_of.
  destruct (isLoading s), (currentState s); split; intros; done.
Qed.

Lemma lifecycle_resting (s : state) (c : status) :
  isLoading s = false → currentState s = c → lifecycle s = lifecycle_of false c.
Proof. intros Hl Hc. unfold lifecycle. by rewrite Hl, Hc. Qed.

Lemma lifecycle_Success (s : state) :
  lifecycle s = Success ↔ isLoading s = false ∧ currentState s = st_success.
Proof.
  unfold lifecycle, lifecycle_of.
  destruct (isLoading s), (currentState s); split; intros; try done;
    by destruct H.
Qed.

Lemma lifecycle_Error (s : state) :
  lifecycle s = Error ↔ isLoading s = false ∧ currentState s = st_error.
Proof.
  unfold lifecycle, lifecycle_of.
  destruct (isLoading s), (currentState s); split; intros; try done;
    by destruct H.
Qed.

Lemma flush_world_clean (w : world) :
  dirty_inputs (comp w) = false → dirty_currentState (comp w) = false →
  flush_world w = w.
Proof.
  intros Hi Hs. destruct w as [s p l]. unfold flush_world, on_comp; simpl in *.
  by rewrite flush_clean.
Qed.

(** When the block runs on [error] with a digit in the code, the
    lifecycle is back at [default] with the default status text. *)
Lemma flush_resets_error (s : state) :
  currentState s = st_error →
  (if dirty_inputs s then join (inputs s) else currentCode s) ≠ "" →
  (if dirty_inputs s then join (inputs s) else currentCode s) ≠ currentCode s
  ∨ dirty_currentState s = true →
  currentState (flush s) = st_default
  ∧ statusText (flush s) = DEFAULT_STATUS_TEXT.
Proof.
  intros He Hne Hrun. unfold flush.
  set (code := if dirty_inputs s then join (inputs s) else currentCode s) in *.
  assert (negb (bool_decide (code = currentCode s)) || dirty_currentState s = true)
    as ->.
  { destruct Hrun as [Hc| ->]; [|by rewrite orb_true_r].
    by rewrite bool_decide_false. }
  assert (Hpos : 0 < String.length code) by (destruct code; simpl; [done | lia]).
  unfold reactive_block.
  destruct s as [cells ai cs st ld bt bd cc di dc]; simpl in *. subst cs.
  destruct (bool_decide (6 - Z.of_nat (String.length code) > 0)%Z); simpl;
    rewrite (bool_decide_true (Z.of_nat (String.length code) > 0)%Z) by lia;
    done.
Qed.

(** *** Submitting *)

(** With fewer than six cells filled, [handleSubmit] returns at
    once: the whole component, its timers and its effect log are as
    before; so is a click on the button. *)
Theorem handleSubmit_incomplete (w : world) :
  reachable w → filled (inputs (comp w)) < 6 →
  handleSubmit w = w ∧ step w EvClick = w.
Proof.
  intros Hr Hfill. pose proof (reachable_Inv w Hr) as [].
  assert (Hs : handleSubmit w = w).
  { unfold handleSubmit. rewrite bool_decide_false; [done|].
    rewrite inv_code0, filled_join by done. lia. }
  split; [done|].
  unfold step, dispatch. rewrite Hs.
  destruct (button_disabled (comp w)); by apply flush_world_clean.
Qed.

Lemma partial_world_reachable : reachable partial_world.
Proof. apply reachable_run; [constructor|]. repeat constructor. Qed.

Lemma handleSubmit_incomplete_witness :
  filled (inputs (comp partial_world)) < 6
  ∧ handleSubmit partial_world = partial_world
  ∧ step partial_world EvClick = partial_world.
Proof.
  assert (Hf : filled (inputs (comp partial_world)) < 6) by (vm_compute; lia).
  split; [exact Hf|].
  exact (handleSubmit_incomplete partial_world partial_world_reachable Hf).
Defined.

(** C2, on the code.  A complete code other than the correct one is
    submitted: the component is verifying; when the wait is over
    [handleSubmit] sets [error], triggers the shake and schedules the
    400ms callback that is to "clear inputs after showing error".  But
    that assignment invalidates [currentState], the six digits are
    still in the code, and so the reactive block resets [currentState]
    to [default] at the flush of that very step: when the component
    is next rendered its lifecycle is idle, with the default status
    text and the wrong digits still in the cells.  There is no error
    phase that lasts until the 400ms callback, and it is not that
    callback which leaves [error]: it empties the six cells and puts
    the focus on cell 0, the lifecycle being idle before and after. *)
Theorem submit_wrong_code (w : world) :
  reachable w → filled (inputs (comp w)) = 6 →
  currentCode (comp w) ≠ CORRECT_CODE →
  let n := length (pending w) in
  let w1 := flush_world (handleSubmit w) in
  let w2 := dispatch (EvTimer n) w1 in
  let w3 := flush_world w2 in
  let w4 := step w3 (EvTimer n) in
  (lifecycle (comp w1) = Verifying
   ∧ pending w1 = pending w ++ [(1500, ResumeSubmit)])
  ∧ (lifecycle (comp w2) = Error
     ∧ log w2 = log w ++ [Shake]
     ∧ pending w2 = pending w ++ [(400, ClearInputs)])
  ∧ (inputs (comp w3) = inputs (comp w)
     ∧ currentState (comp w3) = st_default
     ∧ lifecycle (comp w3) = Idle
     ∧ statusText (comp w3) = DEFAULT_STATUS_TEXT
     ∧ pending w3 = pending w ++ [(400, ClearInputs)])
  ∧ (inputs (comp w4) = array_fill 6
     ∧ activeInputIndex (comp w4) = 0
     ∧ lifecycle (comp w4) = Idle
     ∧ pending w4 = pending w).
Proof.
  intros Hr Hfull Hwrong n w1 w2 w3 w4.
  pose proof (reachable_Inv w Hr) as [].
  assert (Hlen6 : String.length (currentCode (comp w)) = 6)
    by (rewrite inv_code0, filled_join; done).
  assert (Hne : currentState (comp w) ≠ st_error).
  { intros He. rewrite (inv_error0 He) in Hlen6. done. }
  assert (Hw1 : w1 = setTimeout ResumeSubmit 1500 (on_comp (set_isLoading true) w)).
  { subst w1. unfold handleSubmit. rewrite bool_decide_true by done. simpl.
    by apply flush_world_clean. }
  assert (Hw2 : w2 = mkWorld
                       (set_isLoading false
                          (set_buttonText "Wrong code!"
                             (set_currentState st_error
                                (set_isLoading true (comp w)))))
                       (pending w ++ [(400, ClearInputs)])
                       (log w ++ [Shake])).
  { subst w2. rewrite Hw1. unfold dispatch, fire, setTimeout, on_comp; simpl.
    subst n. rewrite lookup_snoc, delete_snoc. simpl.
    unfold resumeSubmit; simpl. rewrite bool_decide_false by done. done. }
  assert (Hs3 : currentState (comp w3) = st_default
                ∧ statusText (comp w3) = DEFAULT_STATUS_TEXT).
  { subst w3. rewrite Hw2. unfold flush_world, on_comp. cbn [comp].
    refine (flush_resets_error _ _ _ _); simpl.
    - done.
    - rewrite inv_dirty_inputs0. intros He. rewrite He in Hlen6. done.
    - right. rewrite inv_dirty_currentState0. simpl.
      rewrite bool_decide_false; [done | by intros He]. }
  assert (Hf3 : inputs (comp w3) = inputs (comp w)
                ∧ isLoading (comp w3) = false
                ∧ pending w3 = pending w ++ [(400, ClearInputs)]).
  { subst w3. rewrite Hw2. unfold flush_world, on_comp.
    cbn [comp pending].
    destruct (flush_fields
                (set_isLoading false
                   (set_buttonText "Wrong code!"
                      (set_currentState st_error
                         (set_isLoading true (comp w))))))
      as (Hi & _ & Hl & _).
    rewrite Hi, Hl. done. }
  destruct Hf3 as (Hi3 & Hl3 & Hp3). destruct Hs3 as [Hs3 Ht3].
  split; [|split; [|split]].
  - rewrite Hw1. split; [|done]. by apply lifecycle_Verifying.
  - rewrite Hw2. split; [|done]. by apply lifecycle_Error.
  - repeat split; try done. by apply (lifecycle_resting _ st_default).
  - subst w4. unfold step, dispatch, fire. rewrite Hp3.
    subst n. rewrite lookup_snoc, delete_snoc. cbn [run_task].
    unfold clearInputs, flush_world, emit, on_comp. cbn [comp pending log].
    set (s := set_activeInputIndex 0 (set_inputs (array_fill 6) (comp w3))).
    destruct (flush_fields s) as (Hi & Ha & Hl & _).
    rewrite Hi, Ha. repeat split.
    destruct (flush_currentState s) as [Hs | [Hs _]].
    + apply (lifecycle_resting _ st_default); [by rewrite Hl | by rewrite Hs].
    + change (currentState (comp w3) = st_error) in Hs. congruence.
Qed.

Lemma wrong_code_world_reachable : reachable wrong_code_world.
Proof. apply reachable_run; [constructor|]. repeat constructor. Qed.

(** The wrong code 1-2-3-4-5-7, typed and submitted with the button:
    what is rendered when the verification has failed is what was
    rendered before the click, no cell flagged as being in error,
    under the button text of a complete code. *)
Lemma submit_wrong_code_witness :
  let w1 := step wrong_code_world EvClick in
  let w2 := dispatch (EvTimer 0) w1 in
  let w3 := step w1 (EvTimer 0) in
  let w4 := step w3 (EvTimer 0) in
  filled (inputs (comp wrong_code_world)) = 6
  ∧ currentCode (comp wrong_code_world) ≠ CORRECT_CODE
  ∧ lifecycle (comp w1) = Verifying
  ∧ lifecycle (comp w2) = Error
  ∧ (lifecycle (comp w3) = Idle
     ∧ inputs (comp w3) = ["1"; "2"; "3"; "4"; "5"; "7"]
     ∧ pending w3 = [(400, ClearInputs)]
     ∧ View.render (comp w3) = View.render (comp wrong_code_world)
     ∧ buttonText (comp w3) = "Verify the code")
  ∧ inputs (comp w4) = array_fill 6
  ∧ activeInputIndex (comp w4) = 0
  ∧ lifecycle (comp w4) = Idle.
Proof.
  assert (Hf : filled (inputs (comp wrong_code_world)) = 6) by reflexivity.
  assert (Hc : currentCode (comp wrong_code_world) ≠ CORRECT_CODE)
    by (vm_compute; discriminate).
  destruct (submit_wrong_code wrong_code_world wrong_code_world_reachable Hf Hc)
    as ((Hv & _) & (He & _) & (Hi3 & _ & Hl3 & _ & Hp3) & Hi & Ha & Hl & _).
  split; [exact Hf|]. split; [exact Hc|].
  split; [exact Hv|]. split; [exact He|].
  split.
  { split; [exact Hl3|]. split; [exact Hi3|]. split; [exact Hp3|].
    vm_compute. split; reflexivity. }
  split; [exact Hi|]. split; [exact Ha | exact Hl].
Defined.

(** *** While verifying *)

Lemma verifying_world_reachable : reachable verifying_world.
Proof. apply reachable_run; [constructor|]. repeat constructor. Qed.

(** The handlers have no guard of their own: called while the
    component is verifying, [handleSubmit] suspends a second
    verification, and [handleInput] and [handlePaste] write cells. *)
Lemma reentrant_calls_counterexample :
  lifecycle (comp verifying_world) = Verifying
  ∧ in_flight verifying_world = 1
  ∧ handleSubmit verifying_world ≠ verifying_world
  ∧ in_flight (handleSubmit verifying_world) = 2
  ∧ inputs (comp (handleInput 0 "9" verifying_world))
    ≠ inputs (comp verifying_world)
  ∧ inputs (comp (handlePaste 0 "9" verifying_world))
    ≠ inputs (comp verifying_world).
Proof. vm_compute. repeat split; discriminate. Qed.

(** C4, as the controller has it.  The gate is the button, which is
    disabled while the component is verifying: a click then changes
    nothing, and so in every execution of the component at most one
    verification is in flight, exactly one while it is verifying. *)
Theorem verifying_single_flight (w : world) :
  reachable w →
  in_flight w ≤ 1
  ∧ (lifecycle (comp w) = Verifying →
     in_flight w = 1 ∧ button_disabled (comp w) = true ∧ step w EvClick = w).
Proof.
  intros Hr. pose proof (reachable_Inv w Hr) as [].
  split; [destruct (isLoading (comp w)); lia|].
  intros Hv%lifecycle_Verifying. rewrite Hv in inv_flight0.
  assert (Hb : button_disabled (comp w) = true)
    by (unfold button_disabled; rewrite Hv; apply orb_true_r).
  split; [done | split; [done|]].
  unfold step, dispatch. rewrite Hb. by apply flush_world_clean.
Qed.

Lemma verifying_single_flight_witness :
  lifecycle (comp verifying_world) = Verifying
  ∧ in_flight verifying_world = 1
  ∧ step verifying_world EvClick = verifying_world.
Proof.
  assert (Hv : lifecycle (comp verifying_world) = Verifying) by reflexivity.
  destruct (verifying_single_flight verifying_world verifying_world_reachable)
    as [_ H].
  destruct (H Hv) as (Hone & _ & Hclick).
  split; [exact Hv | split; [exact Hone | exact Hclick]].
Defined.

(** *** After success *)

Lemma success_world_reachable : reachable success_world.
Proof. apply reachable_run; [constructor|]. repeat constructor. Qed.

(** On the success screen a typed digit is still stored and moves
    the focus, and a further submission of the edited code leaves
    [success]. *)
Lemma success_accepts_input_counterexample :
  lifecycle (comp success_world) = Success
  ∧ inputs (comp (step success_world (EvInput 0 "9")))
    ≠ inputs (comp success_world)
  ∧ activeInputIndex (comp (step success_world (EvInput 0 "9")))
    ≠ activeInputIndex (comp success_world)
  ∧ inputs (comp (step success_world (EvKeydown 5 "Backspace")))
    ≠ inputs (comp success_world)
  ∧ inputs (comp (step success_world (EvPaste 0 "77")))
    ≠ inputs (comp success_world)
  ∧ lifecycle (comp (step success_world EvClick)) = Verifying
  ∧ lifecycle (comp (run success_world [EvInput 0 "9"; EvClick; EvTimer 0]))
    = Idle.
Proof. vm_compute. repeat split; discriminate. Qed.

(** The input handlers and the focus event leave [currentState] and
    [isLoading] alone. *)
Lemma edits_keep_status (w : world) (ev : event) :
  match ev with EvClick | EvTimer _ => False | _ => True end →
  currentState (comp (dispatch ev w)) = currentState (comp w)
  ∧ isLoading (comp (dispatch ev w)) = isLoading (comp w).
Proof.
  destruct ev as [i v|i k|i t|i| |k]; simpl; intros Hev; try done.
  - unfold handleInput.
    destruct (test_digit v); simpl; [|done]. by destruct (decide (i < 5)).
  - unfold handleKeydown.
    destruct (bool_decide (k = "Backspace")); simpl.
    + destruct (truthy _); simpl; [done|]. by destruct (decide (0 < i)).
    + destruct (_ && _); simpl; [done|]. by destruct (_ && _).
  - unfold handlePaste. by destruct (truthy _).
Qed.

(** C5, as the controller has it.  [success] is left through the
    button only: typing, Backspace and the arrow keys, a paste, a
    focus change and every timer keep the lifecycle at [success].
    Input is not locked there: a digit typed in a cell is stored in
    it.  A click on the button changes nothing while fewer than six
    cells are filled; with six cells filled it starts a verification:
    the lifecycle is verifying, one call in flight. *)
Theorem success_sticky (w : world) :
  reachable w → lifecycle (comp w) = Success →
  (∀ ev, ev ≠ EvClick → lifecycle (comp (step w ev)) = Success)
  ∧ (∀ i d, i < 6 → test_digit d = true →
            inputs (comp (step w (EvInput i d))) !! i = Some d)
  ∧ (filled (inputs (comp w)) < 6 → step w EvClick = w)
  ∧ (filled (inputs (comp w)) = 6 →
     lifecycle (comp (step w EvClick)) = Verifying
     ∧ in_flight (step w EvClick) = 1
     ∧ inputs (comp (step w EvClick)) = inputs (comp w)).
Proof.
  intros Hr [Hl Hs]%lifecycle_Success.
  pose proof (reachable_Inv w Hr) as [].
  split; [|split; [|split]].
  - intros ev Hev.
    assert (Hd : currentState (comp (dispatch ev w)) = st_success
                 ∧ isLoading (comp (dispatch ev w)) = false).
    { destruct ev as [i v|i k|i t|i| |k]; try done;
        try (rewrite <- Hs, <- Hl; apply edits_keep_status; done).
      simpl. unfold fire.
      destruct (pending w !! k) as [[ms t]|] eqn:Hk; [|done].
      pose proof (length_filter_delete (λ p, p.2 = ResumeSubmit) _ _ _ Hk)
        as Hdel.
      unfold in_flight in inv_flight0. rewrite Hl in inv_flight0.
      destruct t; simpl in *; [lia | done]. }
    destruct Hd as [Hs' Hl'].
    unfold step, flush_world, on_comp. cbn [comp].
    destruct (flush_fields (comp (dispatch ev w))) as (_ & _ & Hlf & _).
    apply lifecycle_Success. split; [by rewrite Hlf|].
    destruct (flush_currentState (comp (dispatch ev w))) as [H | [H _]];
      congruence.
  - intros i d Hi Hd.
    unfold step, flush_world, on_comp. cbn [comp].
    destruct (flush_fields (comp (dispatch (EvInput i d) w))) as (Hin & _).
    rewrite Hin. simpl. unfold handleInput. rewrite Hd. simpl.
    rewrite array_set_lt by lia.
    destruct (decide (i < 5)); simpl; apply list_lookup_insert_eq; lia.
  - intros Hfill. by apply handleSubmit_incomplete.
  - intros Hfull.
    assert (Hlen6 : String.length (currentCode (comp w)) = 6)
      by (rewrite inv_code0, filled_join; done).
    assert (Hb : button_disabled (comp w) = false).
    { unfold button_disabled. rewrite inv_button0, Hl.
      rewrite bool_decide_false by lia. done. }
    assert (Hw : step w EvClick
                 = setTimeout ResumeSubmit 1500 (on_comp (set_isLoading true) w)).
    { unfold step, dispatch. rewrite Hb. unfold handleSubmit.
      rewrite bool_decide_true by done. simpl. by apply flush_world_clean. }
    rewrite Hw. split; [by apply lifecycle_Verifying|].
    split; [|done].
    rewrite in_flight_setTimeout. unfold in_flight in *. simpl.
    rewrite inv_flight0, Hl. done.
Qed.

Lemma success_sticky_witness :
  lifecycle (comp success_world) = Success
  ∧ lifecycle (comp (step success_world (EvInput 0 "9"))) = Success
  ∧ inputs (comp (step success_world (EvInput 0 "9"))) !! 0 = Some "9"
  ∧ lifecycle (comp (step success_world EvClick)) = Verifying
  ∧ in_flight (step success_world EvClick) = 1.
Proof.
  assert (Hs : lifecycle (comp success_world) = Success) by reflexivity.
  destruct (success_sticky success_world success_world_reachable Hs)
    as (Hkeep & Hin & _ & Hclick).
  split; [exact Hs|].
  split; [apply Hkeep; discriminate|].
  split; [apply Hin; [lia | reflexivity]|].
  destruct (Hclick eq_refl) as (Hv & Hone & _).
  split; [exact Hv | exact Hone].
Defined.

(** *** Leaving the error state *)

Lemma error_world_reachable : reachable error_world.
Proof. apply reachable_run; [constructor|]. repeat constructor. Qed.

(** C10. A digit typed while the component rests in [error] brings
    it back to [default], with the default status text, at the flush
    of that very keystroke; no timer is involved. *)
Theorem digit_resets_error (w : world) (i : nat) (d : string) :
  reachable w → lifecycle (comp w) = Error →
  test_digit d = true → i < 6 →
  let w' := step w (EvInput i d) in
  lifecycle (comp w') = Idle
  ∧ currentState (comp w') = st_default
  ∧ statusText (comp w') = DEFAULT_STATUS_TEXT
  ∧ pending w' = pending w.
Proof.
  intros Hr [Hl He]%lifecycle_Error Hd Hi w'.
  pose proof (reachable_Inv w Hr) as [].
  destruct (edits_keep_status w (EvInput i d) I) as [Hs' Hl'].
  assert (Hin : dirty_inputs (comp (dispatch (EvInput i d) w)) = true
                ∧ inputs (comp (dispatch (EvInput i d) w)) !! i = Some d
                ∧ currentCode (comp (dispatch (EvInput i d) w)) = ""
                ∧ pending (dispatch (EvInput i d) w) = pending w).
  { simpl. unfold handleInput. rewrite Hd. simpl.
    rewrite array_set_lt by lia.
    destruct (decide (i < 5)); simpl;
      (split; [done|]; split; [apply list_lookup_insert_eq; lia|]; auto). }
  destruct Hin as (Hdi & Hcell & Hcode & Hp).
  assert (Hne : join (inputs (comp (dispatch (EvInput i d) w))) ≠ "").
  { intros Hj. apply length_join_lookup in Hcell.
    rewrite Hj, (test_digit_length _ Hd) in Hcell. simpl in Hcell. lia. }
  destruct (flush_resets_error (comp (dispatch (EvInput i d) w)))
    as [Hs Ht].
  { by rewrite Hs'. }
  { by rewrite Hdi. }
  { left. rewrite Hdi, Hcode. done. }
  destruct (flush_fields (comp (dispatch (EvInput i d) w))) as (_ & _ & Hlf & _).
  subst w'. unfold step, flush_world, on_comp. cbn [comp pending].
  split; [|done].
  apply (lifecycle_resting _ st_default); [by rewrite Hlf, Hl' | done].
Qed.

Lemma digit_resets_error_witness :
  lifecycle (comp error_world) = Error
  ∧ lifecycle (comp (step error_world (EvInput 2 "4"))) = Idle
  ∧ statusText (comp (step error_world (EvInput 2 "4"))) = DEFAULT_STATUS_TEXT.
Proof.
  assert (He : lifecycle (comp error_world) = Error) by reflexivity.
  destruct (digit_resets_error error_world 2 "4" error_world_reachable He
              eq_refl ltac:(lia)) as (Hl & _ & Ht & _).
  split; [exact He | split; [exact Hl | exact Ht]].
Defined.

(** *** What a stored digit changes *)

(** A digit typed while the component rests in [error]: the handler
    leaves the lifecycle at [error], the flush of the keystroke does
    not. *)
Lemma setCellDigit_lifecycle_counterexample :
  reachable error_world
  ∧ test_digit "4" = true
  ∧ lifecycle (comp error_world) = Error
  ∧ lifecycle (comp (handleInput 2 "4" error_world)) = Error
  ∧ lifecycle (comp (step error_world (EvInput 2 "4"))) = Idle
  ∧ lifecycle (comp (step error_world (EvInput 2 "4")))
    ≠ lifecycle (comp error_world).
Proof.
  split; [exact error_world_reachable|].
  vm_compute. repeat split; discriminate.
Qed.

(** C9, as the controller has it.  A digit typed in cell [i] is
    stored there and every other cell keeps its value, through the
    handler and the flush that follows it.  The handler does not
    assign the lifecycle; the flush leaves it where it was unless it
    was [error], and then it is idle. *)
Theorem setCellDigit_frame (w : world) (i j : nat) (d : string) :
  reachable w → test_digit d = true → i < 6 → j ≠ i →
  let w' := step w (EvInput i d) in
  inputs (comp w') !! i = Some d
  ∧ inputs (comp w') !! j = inputs (comp w) !! j
  ∧ lifecycle (comp (handleInput i d w)) = lifecycle (comp w)
  ∧ (lifecycle (comp w) ≠ Error → lifecycle (comp w') = lifecycle (comp w))
  ∧ (lifecycle (comp w) = Error → lifecycle (comp w') = Idle).
Proof.
  intros Hr Hd Hi Hj w'.
  pose proof (reachable_Inv w Hr) as [].
  destruct (handleInput_frame w i j d Hd ltac:(lia) Hj)
    as (Hframe & Hlife & Hs' & Hl').
  assert (Hin : dirty_inputs (comp (handleInput i d w)) = true
                ∧ inputs (comp (handleInput i d w)) !! i = Some d).
  { unfold handleInput. rewrite Hd. simpl. rewrite array_set_lt by lia.
    destruct (decide (i < 5)); simpl;
      (split; [done | apply list_lookup_insert_eq; lia]). }
  destruct Hin as [Hdi Hcell].
  destruct (flush_fields (comp (handleInput i d w))) as (Hfi & _ & Hfl & _).
  assert (Hcomp : comp w' = flush (comp (handleInput i d w))) by done.
  rewrite Hcomp, Hfi.
  split; [done|]. split; [done|]. split; [done|].
  split.
  - intros Hne.
    unfold lifecycle in *. rewrite Hfl, Hl'.
    destruct (flush_currentState (comp (handleInput i d w)))
      as [H | [H _]].
    + by rewrite H, Hs'.
    + rewrite Hs' in H. rewrite H in Hne.
      destruct (isLoading (comp w)) eqn:Hload; [|done].
      (* in error while loading: [lifecycle_of] reads verifying *)
      done.
  - intros [Hl He]%lifecycle_Error.
    assert (Hcc : currentCode (comp (handleInput i d w)) = "").
    { unfold handleInput. rewrite Hd. simpl.
      destruct (decide (i < 5)); simpl; by apply inv_error0. }
    assert (Hne : join (inputs (comp (handleInput i d w))) ≠ "").
    { intros Hjn. apply length_join_lookup in Hcell.
      rewrite Hjn, (test_digit_length _ Hd) in Hcell. simpl in Hcell. lia. }
    destruct (flush_resets_error (comp (handleInput i d w))) as [Hs _].
    { by rewrite Hs'. }
    { by rewrite Hdi. }
    { left. by rewrite Hdi, Hcc. }
    apply (lifecycle_resting _ st_default); [by rewrite Hfl, Hl' | done].
Qed.

Lemma setCellDigit_frame_witness :
  (inputs (comp (step error_world (EvInput 2 "4"))) !! 2 = Some "4"
   ∧ inputs (comp (step error_world (EvInput 2 "4"))) !! 4 = Some ""
   ∧ lifecycle (comp error_world) = Error
   ∧ lifecycle (comp (step error_world (EvInput 2 "4"))) = Idle)
  ∧ (inputs (comp (step success_world (EvInput 2 "9"))) !! 2 = Some "9"
     ∧ inputs (comp (step success_world (EvInput 2 "9"))) !! 4 = Some "5"
     ∧ lifecycle (comp (step success_world (EvInput 2 "9"))) = Success).
Proof.
  assert (He : lifecycle (comp error_world) = Error) by reflexivity.
  assert (Hs : lifecycle (comp success_world) ≠ Error)
    by (vm_compute; discriminate).
  destruct (setCellDigit_frame error_world 2 4 "4" error_world_reachable
              eq_refl ltac:(lia) ltac:(lia)) as (Hc & Hf & _ & _ & Hl).
  destruct (setCellDigit_frame success_world 2 4 "9" success_world_reachable
              eq_refl ltac:(lia) ltac:(lia)) as (Hc' & Hf' & _ & Hl' & _).
  split.
  - split; [exact Hc|]. split; [exact Hf|]. split; [exact He | exact (Hl He)].
  - split; [exact Hc'|]. split; [exact Hf'|].
    rewrite (Hl' Hs). reflexivity.
Defined.

End ControllerFacts.

(** ** The page variant *)

Module PageFacts.
Import Js JsFacts Page.

(** [handleInput] tests [isCodeComplete] as the last flush left it:
    the digit it has just stored is not in it yet.  Unless the code
    was complete before the keystroke, nothing is scheduled. *)
Lemma handleInput_schedules_by_old_flag (w : world) (i : nat) (v : string) :
  pending (handleInput i v w)
  = if test_digit v && isCodeComplete (comp w)
    then pending w ++ [(500, Submit)] else pending w.
Proof.
  unfold handleInput.
  destruct (test_digit v); simpl; [|done].
  set (w3 := if truthy v && _ then _ else _).
  assert (H3 : isCodeComplete (comp w3) = isCodeComplete (comp w)
               ∧ pending w3 = pending w).
  { subst w3. unfold animateDigitDrop.
    destruct (truthy v && _); simpl; by destruct (decide _). }
  destruct H3 as [Hc Hp]. rewrite Hc.
  destruct (isCodeComplete (comp w)); simpl; by rewrite Hp.
Qed.

(** C3, on the code.  The six digits of the correct code are typed,
    one per cell.  After the sixth keystroke and its flush the code
    is complete and the button is enabled, but no [handleSubmit] is
    scheduled and no timer is pending at all: the component stays
    idle until the user clicks or presses Enter. *)
Theorem typing_last_digit_schedules_nothing :
  currentCode (comp typed_world) = "123456"
  ∧ isCodeComplete (comp typed_world) = true
  ∧ isButtonDisabled (comp typed_world) = false
  ∧ submits_scheduled typed_world = 0
  ∧ pending typed_world = []
  ∧ lifecycle (comp typed_world) = Idle.
Proof. vm_compute. repeat split. Qed.

(** The flag is read one keystroke late: a digit typed over a code
    that was already complete does schedule the submission. *)
Example retyping_schedules_submit :
  pending (step typed_world (EvInput 5 "6")) = [(500, Submit)].
Proof. reflexivity. Qed.

(** The paste path tests the pasted length, not the flag: six pasted
    digits are submitted without a click, once by each of the two
    paste listeners, and, being the correct code, end in [success]. *)
Example paste_auto_submits :
  pending pasted_world = [(500, Submit); (500, Submit)]
  ∧ lifecycle (comp (step pasted_world (EvTimer 0))) = Verifying
  ∧ lifecycle (comp (run pasted_world (replicate 4 (EvTimer 0)))) = Success.
Proof. vm_compute. repeat split. Qed.

(** In this variant a paste empties all six cells first and fills
    them from cell 0, whatever cell it was pasted into. *)
Example paste_clears_preceding_cells :
  digits (comp pasted_99_world) = ["9"; "9"; ""; ""; ""; ""].
Proof. reflexivity. Qed.

(** In this variant [handleSubmit] on an incomplete code shows an
    error. *)
Lemma handleSubmit_incomplete_sets_error (w : world) :
  isCodeComplete (comp w) = false →
  currentState (comp (handleSubmit w)) = st_error
  ∧ statusText (comp (handleSubmit w)) = "Please enter all 6 digits"
  ∧ digits (comp (handleSubmit w)) = digits (comp w).
Proof. intros H. unfold handleSubmit. rewrite H. done. Qed.

(** In this variant a wrong code leaves the component in [error]
    with its cells filled and no timer pending. *)
Example wrong_code_stays_in_error :
  let w := run initial (type_code "1" "2" "3" "4" "5" "7"
                        ++ [EvClick; EvTimer 0]) in
  lifecycle (comp w) = Error
  ∧ digits (comp w) = ["1"; "2"; "3"; "4"; "5"; "7"]
  ∧ pending w = [].
Proof. vm_compute. repeat split. Qed.

(** In this variant Enter reaches [handleSubmit] while a
    verification is under way. *)
Example enter_while_verifying :
  let w := run typed_world [EvKeydown 5 "Enter"] in
  lifecycle (comp w) = Verifying
  ∧ in_flight w = 1
  ∧ in_flight (step w (EvKeydown 5 "Enter")) = 2.
Proof. vm_compute. repeat split. Qed.

End PageFacts.

(** ** The controller variant: invariants, keys, counts and the view *)

Module ControllerMore.
Import Js JsFacts Controller ControllerFacts.

Lemma filled_insert (l : list string) (i : nat) (old v : string) :
  l !! i = Some old →
  filled (<[i:=v]> l) + (if truthy old then 1 else 0)
  = filled l + (if truthy v then 1 else 0).
Proof.
  revert i. induction l as [|c l IH]; intros i Hi; [done|].
  destruct i as [|i]; simpl in Hi.
  - injection Hi as ->. simpl. rewrite !filled_cons.
    destruct (truthy old), (truthy v); lia.
  - simpl. rewrite !filled_cons. specialize (IH i Hi).
    destruct (truthy old), (truthy v), (truthy c); lia.
Qed.

Lemma filled_le_length (l : list string) : filled l ≤ length l.
Proof. unfold filled. apply length_filter. Qed.

Lemma filled_digits (l : list string) :
  Forall (λ c, test_digit c = true) l → filled l = length l.
Proof.
  induction 1 as [|c l Hc _ IH]; [done|].
  rewrite filled_cons, (test_digit_truthy _ Hc), IH. done.
Qed.

Lemma cells_empty_of_join (l : list string) :
  Forall cell_ok l → join l = "" → l = replicate (length l) "".
Proof.
  induction 1 as [|c l [->|Hc] _ IH]; simpl; [done| |].
  - intros Hj. by rewrite <- IH.
  - destruct c as [|a c]; [done|]. simpl. discriminate.
Qed.

Lemma Inv_button_filled (w : world) :
  Inv w →
  isButtonDisabled (comp w) = bool_decide (filled (inputs (comp w)) < 6).
Proof.
  intros []. rewrite inv_button0, inv_code0, filled_join by done. done.
Qed.

Lemma retyping_world_reachable : reachable retyping_world.
Proof.
  apply reachable_run; [apply wrong_code_world_reachable|]. repeat constructor.
Qed.

Lemma correct_code_world_reachable : reachable correct_code_world.
Proof. apply reachable_run; [constructor|]. repeat constructor. Qed.

(** *** What every reachable state satisfies *)

(** X1. In every execution there are six cells, each empty or holding
    one digit, the focus index is one of 0..5, and the code the
    component works with is the concatenation of the cells, as long as
    the number of filled cells. *)
Theorem reachable_cells_wellformed (w : world) :
  reachable w →
  length (inputs (comp w)) = 6
  ∧ Forall cell_ok (inputs (comp w))
  ∧ activeInputIndex (comp w) < 6
  ∧ currentCode (comp w) = join (inputs (comp w))
  ∧ String.length (currentCode (comp w)) = filled (inputs (comp w)).
Proof.
  intros Hr. pose proof (reachable_Inv w Hr) as [].
  repeat split; try done; [lia|].
  rewrite inv_code0. by apply filled_join.
Qed.

Lemma reachable_cells_wellformed_witness :
  length (inputs (comp retyping_world)) = 6
  ∧ activeInputIndex (comp retyping_world) < 6
  ∧ String.length (currentCode (comp retyping_world))
    = filled (inputs (comp retyping_world)).
Proof.
  destruct (reachable_cells_wellformed retyping_world retyping_world_reachable)
    as (Hlen & _ & Hf & _ & Hc).
  split; [exact Hlen | split; [exact Hf | exact Hc]].
Defined.

(** X2. The reactive block keeps the button in step with the cells:
    [isButtonDisabled] is false exactly when all six cells are filled,
    and the rendered button is enabled exactly when, in addition, no
    verification is under way. *)
Theorem button_enabled_iff_complete (w : world) :
  reachable w →
  (isButtonDisabled (comp w) = false ↔ filled (inputs (comp w)) = 6)
  ∧ (button_disabled (comp w) = false
     ↔ filled (inputs (comp w)) = 6 ∧ lifecycle (comp w) ≠ Verifying).
Proof.
  intros Hr. pose proof (reachable_Inv w Hr) as HI.
  pose proof (Inv_button_filled w HI) as Hb. destruct HI.
  pose proof (filled_le_length (inputs (comp w))) as Hle.
  rewrite inv_length0 in Hle.
  assert (H1 : isButtonDisabled (comp w) = false ↔ filled (inputs (comp w)) = 6).
  { rewrite Hb. rewrite bool_decide_eq_false. lia. }
  split; [done|].
  unfold button_disabled. rewrite orb_false_iff, H1, lifecycle_Verifying.
  destruct (isLoading (comp w)); split; intros []; split; done.
Qed.

Lemma button_enabled_iff_complete_witness :
  button_disabled (comp correct_code_world) = false
  ∧ button_disabled (comp partial_world) = true.
Proof.
  destruct (button_enabled_iff_complete correct_code_world
              correct_code_world_reachable) as [_ [_ H1]].
  destruct (button_enabled_iff_complete partial_world
              partial_world_reachable) as [_ [H2 _]].
  split.
  - apply H1. split; [vm_compute; reflexivity | vm_compute; discriminate].
  - destruct (button_disabled (comp partial_world)) eqn:Hb; [reflexivity|].
    destruct (H2 eq_refl) as [Hf _]. vm_compute in Hf. discriminate Hf.
Defined.

(** X3. Between two events the component is never in [error] with a
    digit on screen: whenever [currentState] is [error], all six cells
    are empty. *)
Theorem error_shows_no_digit (w : world) :
  reachable w → currentState (comp w) = st_error →
  inputs (comp w) = array_fill 6.
Proof.
  intros Hr He. pose proof (reachable_Inv w Hr) as [].
  rewrite <- inv_length0. apply cells_empty_of_join; [done|].
  rewrite <- inv_code0. by apply inv_error0.
Qed.

Lemma error_shows_no_digit_witness :
  currentState (comp error_world) = st_error
  ∧ inputs (comp error_world) = array_fill 6.
Proof.
  split; [reflexivity|].
  exact (error_shows_no_digit error_world error_world_reachable eq_refl).
Defined.

(** *** Submitting the right code *)

(** X4. When the code is the correct one, a submission makes the
    component verifying and, once the wait is over, puts it in
    [success]: the cells and the focus are kept, nothing shakes, and
    no further timer is scheduled. *)
Theorem submit_correct_code (w : world) :
  reachable w → currentCode (comp w) = CORRECT_CODE →
  let n := length (pending w) in
  let w1 := flush_world (handleSubmit w) in
  let w2 := step w1 (EvTimer n) in
  lifecycle (comp w1) = Verifying
  ∧ pending w1 = pending w ++ [(1500, ResumeSubmit)]
  ∧ lifecycle (comp w2) = Success
  ∧ inputs (comp w2) = inputs (comp w)
  ∧ activeInputIndex (comp w2) = activeInputIndex (comp w)
  ∧ log w2 = log w
  ∧ pending w2 = pending w.
Proof.
  intros Hr Hcode n w1 w2. pose proof (reachable_Inv w Hr) as [].
  assert (Hw1 : w1 = setTimeout ResumeSubmit 1500 (on_comp (set_isLoading true) w)).
  { subst w1. unfold handleSubmit. rewrite Hcode. simpl.
    by apply flush_world_clean. }
  set (s2 := set_isLoading false
               (set_buttonText "Let's go!"
                  (set_currentState st_success (set_isLoading true (comp w))))).
  assert (Hw2 : w2 = mkWorld (flush s2) (pending w) (log w)).
  { subst w2. rewrite Hw1. unfold step, dispatch, fire, setTimeout, on_comp.
    cbn [comp pending log].
    subst n. rewrite lookup_snoc, delete_snoc. cbn [run_task].
    unfold resumeSubmit, on_comp. cbn [comp pending log set_isLoading currentCode].
    rewrite Hcode, bool_decide_true by done. done. }
  destruct (flush_fields s2) as (Hi & Ha & Hl & _).
  split; [rewrite Hw1; by apply lifecycle_Verifying|].
  split; [by rewrite Hw1|].
  rewrite Hw2. cbn [comp pending log]. rewrite Hi, Ha.
  split; [|done].
  apply lifecycle_Success. split; [by rewrite Hl|].
  destruct (flush_currentState s2) as [Hs | [Hs _]]; [by rewrite Hs | done].
Qed.

Lemma submit_correct_code_witness :
  currentCode (comp correct_code_world) = CORRECT_CODE
  ∧ lifecycle (comp (step (flush_world (handleSubmit correct_code_world))
                          (EvTimer 0))) = Success.
Proof.
  split; [reflexivity|].
  destruct (submit_correct_code correct_code_world
              correct_code_world_reachable eq_refl) as (_ & _ & Hs & _).
  exact Hs.
Defined.

(** *** Keys other than Backspace *)

(** X5. A key other than Backspace never touches a cell, the lifecycle
    or the timers.  ArrowLeft in the first cell, ArrowRight in the last
    one and every key that is not an arrow (Enter, ArrowUp, ArrowDown,
    Tab, a digit key ...) leave the whole component as it is; in
    particular Enter does not submit. *)
Theorem non_backspace_keys (w : world) (index : nat) (key : string) :
  key ≠ "Backspace" →
  let w' := handleKeydown index key w in
  (inputs (comp w') = inputs (comp w)
   ∧ lifecycle (comp w') = lifecycle (comp w)
   ∧ pending w' = pending w)
  ∧ (key ≠ "ArrowLeft" ∨ index = 0 → key ≠ "ArrowRight" ∨ 5 ≤ index → w' = w).
Proof.
  intros Hk w'. subst w'. unfold handleKeydown.
  rewrite bool_decide_false by done.
  destruct (decide (key = "ArrowLeft")) as [->|Hl].
  - rewrite bool_decide_true by done. cbn [andb].
    destruct (decide (0 < index)) as [Hpos|Hpos].
    + rewrite bool_decide_true by done. split; [done|].
      intros [?|?]; [done | lia].
    + rewrite bool_decide_false by done.
      rewrite (bool_decide_false ("ArrowLeft" = "ArrowRight")) by done. done.
  - rewrite (bool_decide_false (key = "ArrowLeft")) by done. cbn [andb].
    destruct (decide (key = "ArrowRight")) as [->|Hr].
    + rewrite bool_decide_true by done. cbn [andb].
      destruct (decide (index < 5)) as [H5|H5].
      * rewrite bool_decide_true by done. split; [done|].
        intros _ [?|?]; [done | lia].
      * rewrite bool_decide_false by done. done.
    + rewrite (bool_decide_false (key = "ArrowRight")) by done. done.
Qed.

Lemma non_backspace_keys_witness :
  handleKeydown 5 "Enter" correct_code_world = correct_code_world
  ∧ handleKeydown 0 "ArrowLeft" correct_code_world = correct_code_world
  ∧ inputs (comp (handleKeydown 3 "ArrowLeft" correct_code_world))
    = inputs (comp correct_code_world).
Proof.
  destruct (non_backspace_keys correct_code_world 5 "Enter") as [_ H1];
    [discriminate|].
  destruct (non_backspace_keys correct_code_world 0 "ArrowLeft") as [_ H2];
    [discriminate|].
  destruct (non_backspace_keys correct_code_world 3 "ArrowLeft") as [[H3 _] _];
    [discriminate|].
  split; [apply H1; left; discriminate|].
  split; [apply H2; [by right | left; discriminate] | exact H3].
Defined.

(** X6. The arrow keys undo each other: from a cell other than the
    first, ArrowLeft followed by ArrowRight in the cell reached brings
    the focus back, and so does ArrowRight followed by ArrowLeft from a
    cell other than the last. *)
Theorem arrow_round_trip (w : world) (index : nat) :
  index < 6 →
  (0 < index →
   activeInputIndex
     (comp (handleKeydown (index - 1) "ArrowRight"
              (handleKeydown index "ArrowLeft" w))) = index)
  ∧ (index < 5 →
     activeInputIndex
       (comp (handleKeydown (index + 1) "ArrowLeft"
                (handleKeydown index "ArrowRight" w))) = index).
Proof.
  intros Hi. unfold handleKeydown.
  rewrite !(bool_decide_false ("ArrowLeft" = "Backspace")) by done.
  rewrite !(bool_decide_false ("ArrowRight" = "Backspace")) by done.
  rewrite !(bool_decide_false ("ArrowRight" = "ArrowLeft")) by done.
  rewrite !(bool_decide_true ("ArrowLeft" = "ArrowLeft")) by done.
  rewrite !(bool_decide_true ("ArrowRight" = "ArrowRight")) by done.
  cbn [andb]. split; intros H.
  - rewrite (bool_decide_true (index - 1 < 5)) by lia. simpl. lia.
  - rewrite (bool_decide_true (0 < index + 1)) by lia. simpl. lia.
Qed.

Lemma arrow_round_trip_witness :
  activeInputIndex
    (comp (handleKeydown 2 "ArrowRight"
             (handleKeydown 3 "ArrowLeft" correct_code_world))) = 3.
Proof.
  destruct (arrow_round_trip correct_code_world 3 ltac:(lia)) as [H _].
  exact (H ltac:(lia)).
Defined.

(** *** Typing and deleting *)

(** X7. Backspace undoes a keystroke.  A digit typed into an empty
    cell before the last one moves the focus on; Backspace in the next
    cell, when that one is empty, restores the cells and the focus.  A
    digit typed into the empty last cell is removed by Backspace
    there. *)
Theorem type_then_backspace (w : world) (i : nat) (d : string) :
  test_digit d = true → length (inputs (comp w)) = 6 →
  inputs (comp w) !! i = Some "" →
  (i < 5 → inputs (comp w) !! (i + 1) = Some "" →
   let w' := handleKeydown (i + 1) "Backspace" (handleInput i d w) in
   inputs (comp w') = inputs (comp w) ∧ activeInputIndex (comp w') = i)
  ∧ (i = 5 →
     let w' := handleKeydown 5 "Backspace" (handleInput 5 d w) in
     inputs (comp w') = inputs (comp w)
     ∧ activeInputIndex (comp w') = activeInputIndex (comp w)).
Proof.
  intros Hd Hlen Hcell.
  assert (Hi : i < 6) by (apply lookup_lt_Some in Hcell; lia).
  assert (Hback : ∀ cells : list string,
            cells !! i = Some "" → <[i:=""]> (<[i:=d]> cells) = cells).
  { intros cells Hc. rewrite list_insert_insert_eq. by apply list_insert_id. }
  split.
  - intros H5 Hnext w'. subst w'. unfold handleInput. rewrite Hd. cbn [negb].
    rewrite decide_True by done. rewrite array_set_lt by lia.
    unfold handleKeydown. rewrite bool_decide_true by done.
    cbn [move_focus emit on_comp comp inputs set_inputs set_activeInputIndex].
    assert (Hget : array_get (<[i:=d]> (inputs (comp w))) (i + 1) = "").
    { unfold array_get. rewrite list_lookup_insert_ne by lia. by rewrite Hnext. }
    rewrite Hget. cbn [truthy]. rewrite decide_True by lia.
    rewrite array_set_lt by (rewrite length_insert; lia).
    replace (i + 1 - 1) with i by lia.
    cbn. split; [by apply Hback | done].
  - intros ->. intros w'. subst w'. unfold handleInput. rewrite Hd. cbn [negb].
    rewrite decide_False by lia. rewrite array_set_lt by lia.
    unfold handleKeydown. rewrite bool_decide_true by done.
    cbn [on_comp comp inputs set_inputs].
    assert (Hget : array_get (<[5:=d]> (inputs (comp w))) 5 = d).
    { unfold array_get. by rewrite list_lookup_insert_eq by lia. }
    rewrite Hget, (test_digit_truthy _ Hd).
    rewrite array_set_lt by (rewrite length_insert; lia).
    cbn. split; [by apply Hback | done].
Qed.

Lemma type_then_backspace_witness :
  let w' := handleKeydown 4 "Backspace" (handleInput 3 "4" partial_world) in
  inputs (comp w') = inputs (comp partial_world) ∧ activeInputIndex (comp w') = 3.
Proof.
  destruct (type_then_backspace partial_world 3 "4" eq_refl eq_refl eq_refl)
    as [H _].
  exact (H ltac:(lia) eq_refl).
Defined.

(** X8. Backspace removes at most one digit and never adds one; in
    the first cell, when that cell is empty, it changes neither the
    cells nor the focus. *)
Theorem backspace_filled_count (w : world) (index : nat) :
  index < 6 → length (inputs (comp w)) = 6 →
  let w' := handleKeydown index "Backspace" w in
  filled (inputs (comp w')) ≤ filled (inputs (comp w))
  ∧ filled (inputs (comp w)) ≤ filled (inputs (comp w')) + 1
  ∧ length (inputs (comp w')) = 6
  ∧ (index = 0 → inputs (comp w) !! 0 = Some "" →
     inputs (comp w') = inputs (comp w)
     ∧ activeInputIndex (comp w') = activeInputIndex (comp w)).
Proof.
  intros Hi Hlen w'. subst w'. unfold handleKeydown.
  rewrite bool_decide_true by done.
  assert (Hcount : ∀ j, j < 6 →
            filled (<[j:=""]> (inputs (comp w))) ≤ filled (inputs (comp w))
            ∧ filled (inputs (comp w)) ≤ filled (<[j:=""]> (inputs (comp w))) + 1).
  { intros j Hj.
    destruct (lookup_lt_is_Some_2 (inputs (comp w)) j ltac:(lia)) as [old Hold].
    pose proof (filled_insert _ _ _ "" Hold) as Hf. simpl in Hf.
    destruct (truthy old); lia. }
  destruct (truthy (array_get (inputs (comp w)) index)) eqn:Ht.
  - rewrite array_set_lt by lia. cbn. rewrite length_insert.
    destruct (Hcount index Hi).
    split; [done|]. split; [done|]. split; [done|].
    intros -> Hz. unfold array_get in Ht. rewrite Hz in Ht. done.
  - destruct (decide (0 < index)) as [Hpos|Hpos].
    + rewrite array_set_lt by lia. cbn. rewrite length_insert.
      destruct (Hcount (index - 1) ltac:(lia)).
      split; [done|]. split; [done|]. split; [done|]. lia.
    + unfold on_comp. simpl. split; [done|]. split; [lia|]. split; done.
Qed.

Lemma backspace_filled_count_witness :
  filled (inputs (comp (handleKeydown 2 "Backspace" partial_world)))
  ≤ filled (inputs (comp partial_world))
  ∧ inputs (comp (handleKeydown 0 "Backspace" initial)) = inputs (comp initial).
Proof.
  destruct (backspace_filled_count partial_world 2 ltac:(lia) eq_refl)
    as (H1 & _).
  destruct (backspace_filled_count initial 0 ltac:(lia) eq_refl)
    as (_ & _ & _ & H2).
  split; [exact H1 | exact (proj1 (H2 eq_refl eq_refl))].
Defined.

(** X9. A typed digit fills one more cell when its cell was empty and
    replaces the digit, the count unchanged, when the cell was already
    filled; anything else leaves the count alone. *)
Theorem input_filled_count (w : world) (i : nat) (v : string) :
  i < 6 → length (inputs (comp w)) = 6 →
  filled (inputs (comp (handleInput i v w)))
  = filled (inputs (comp w))
    + (if test_digit v && negb (truthy (array_get (inputs (comp w)) i))
       then 1 else 0).
Proof.
  intros Hi Hlen. unfold handleInput.
  destruct (test_digit v) eqn:Hv; cbn [negb andb]; [|lia].
  rewrite array_set_lt by lia.
  destruct (lookup_lt_is_Some_2 (inputs (comp w)) i ltac:(lia)) as [old Hold].
  pose proof (filled_insert _ _ _ v Hold) as Hf.
  rewrite (test_digit_truthy _ Hv) in Hf.
  unfold array_get. rewrite Hold.
  destruct (decide (i < 5)); unfold move_focus, emit, on_comp; simpl;
    destruct (truthy old); simpl in *; lia.
Qed.

Lemma input_filled_count_witness :
  filled (inputs (comp (handleInput 3 "4" partial_world))) = 4
  ∧ filled (inputs (comp (handleInput 1 "9" partial_world))) = 3.
Proof.
  pose proof (input_filled_count partial_world 3 "4" ltac:(lia) eq_refl) as H1.
  pose proof (input_filled_count partial_world 1 "9" ltac:(lia) eq_refl) as H2.
  split; [exact H1 | exact H2].
Defined.

(** *** Pasting *)

Lemma handlePaste_inputs (w : world) (index : nat) (text : string) :
  inputs (comp (handlePaste index text w))
  = paste_cells (strip_non_digits text) index
      ((index + String.length (strip_non_digits text)) `min` 6 - index)
      (inputs (comp w)).
Proof.
  unfold handlePaste.
  destruct (strip_non_digits text) as [|a d]; [|done].
  cbn [truthy negb String.length].
  by replace ((index + 0) `min` 6 - index) with 0 by lia.
Qed.



(** X11. Six or more digits pasted into the first cell replace the
    whole code: the cells are the first six pasted digits whatever
    they held before, the focus is on the last cell and, after the
    flush, the button is enabled. *)
Theorem paste_full_code (w : world) (rawText : string) :
  reachable w →
  let d := strip_non_digits rawText in
  6 ≤ String.length d →
  let w' := step w (EvPaste 0 rawText) in
  inputs (comp w') = map (char_at d) (seq 0 6)
  ∧ filled (inputs (comp w')) = 6
  ∧ activeInputIndex (comp w') = 5
  ∧ isButtonDisabled (comp w') = false.
Proof.
  intros Hr d Hlen w'.
  pose proof (reachable_Inv w Hr) as HI.
  assert (Hr' : reachable w') by (apply reachable_step; [done | simpl; lia]).
  pose proof (reachable_Inv w' Hr') as HI'.
  pose proof (Inv_button_filled w' HI') as Hb.
  destruct HI as [_ _ _ Hl6 _ _ _ _ _].
  assert (Hin : inputs (comp w') = map (char_at d) (seq 0 6)).
  { subst w'. unfold step, flush_world, on_comp. cbn [comp dispatch].
    destruct (flush_fields (comp (handlePaste 0 rawText w))) as (Hi & _).
    rewrite Hi, handlePaste_inputs. fold d.
    replace ((0 + String.length d) `min` 6 - 0) with 6 by lia.
    apply list_eq. intros j.
    destruct (decide (j < 6)) as [Hj|Hj].
    - rewrite (paste_cells_written d 0 6 _ j) by lia.
      rewrite list_lookup_fmap, lookup_seq_lt by lia. done.
    - rewrite !lookup_ge_None_2; [done | |].
      + rewrite length_map, length_seq. lia.
      + rewrite paste_cells_length; lia. }
  assert (Hfill : filled (inputs (comp w')) = 6).
  { rewrite Hin. rewrite filled_digits; [by rewrite length_map, length_seq|].
    apply Forall_forall. intros c [j [-> Hj%elem_of_seq]]%list_elem_of_fmap.
    apply char_at_digit; [apply all_digits_strip | lia]. }
  split; [done|]. split; [done|]. split.
  - subst w'. unfold step, flush_world, on_comp. cbn [comp dispatch].
    destruct (flush_fields (comp (handlePaste 0 rawText w))) as (_ & Ha & _).
    rewrite Ha. unfold handlePaste. fold d.
    assert (Ht : truthy d = true) by (destruct d; [simpl in Hlen; lia | done]).
    rewrite Ht. simpl. lia.
  - rewrite Hb, Hfill. done.
Qed.

Lemma paste_full_code_witness :
  inputs (comp (step partial_world (EvPaste 0 "98 76 54 32")))
  = ["9"; "8"; "7"; "6"; "5"; "4"]
  ∧ isButtonDisabled (comp (step partial_world (EvPaste 0 "98 76 54 32"))) = false.
Proof.
  destruct (paste_full_code partial_world "98 76 54 32" partial_world_reachable)
    as (Hc & _ & _ & Hb); [simpl; lia|].
  split; [exact Hc | exact Hb].
Defined.

(** X12. Pasting the same text into the same cell a second time
    changes neither the cells nor the focus. *)
Theorem paste_idempotent (w : world) (index : nat) (rawText : string) :
  index ≤ 5 → length (inputs (comp w)) = 6 →
  let w1 := handlePaste index rawText w in
  let w2 := handlePaste index rawText w1 in
  inputs (comp w2) = inputs (comp w1)
  ∧ activeInputIndex (comp w2) = activeInputIndex (comp w1).
Proof.
  intros Hi Hlen w1 w2. subst w1 w2.
  set (d := strip_non_digits rawText).
  set (n := (index + String.length d) `min` 6 - index).
  assert (Hl1 : length (inputs (comp (handlePaste index rawText w))) = 6).
  { rewrite handlePaste_inputs, paste_cells_length; [done | lia]. }
  split.
  - rewrite (handlePaste_inputs (handlePaste index rawText w)).
    fold d n. apply list_eq. intros j.
    destruct (decide (index ≤ j < index + n)) as [Hj|Hj].
    + replace j with (index + (j - index)) by lia.
      rewrite paste_cells_written by lia.
      rewrite handlePaste_inputs. fold d n.
      by rewrite paste_cells_written by lia.
    + rewrite paste_cells_frame by lia. done.
  - unfold handlePaste. fold d. destruct (truthy d); simpl; done.
Qed.

Lemma paste_idempotent_witness :
  inputs (comp (handlePaste 2 "x7y8" (handlePaste 2 "x7y8" partial_world)))
  = inputs (comp (handlePaste 2 "x7y8" partial_world)).
Proof.
  exact (proj1 (paste_idempotent partial_world 2 "x7y8" ltac:(lia) eq_refl)).
Defined.

(** *** The delayed clearing *)

Lemma flush_idle_currentState (s : state) :
  (if dirty_inputs s then join (inputs s) else currentCode s) = currentCode s →
  dirty_currentState s = false →
  currentState (flush s) = currentState s.
Proof.
  intros Hc Hd. unfold flush. rewrite Hc, Hd.
  by rewrite bool_decide_true.
Qed.

(** X13. The 400ms callback is never cancelled: whenever it fires it
    empties the six cells, whatever has been typed since the refusal,
    and puts the focus on the first cell.  It leaves the lifecycle as
    it is and starts no verification. *)
Theorem clear_timer_erases (w : world) (k ms : nat) :
  reachable w → pending w !! k = Some (ms, ClearInputs) →
  let w' := step w (EvTimer k) in
  inputs (comp w') = array_fill 6
  ∧ activeInputIndex (comp w') = 0
  ∧ lifecycle (comp w') = lifecycle (comp w)
  ∧ in_flight w' = in_flight w.
Proof.
  intros Hr Hk w'. pose proof (reachable_Inv w Hr) as [].
  pose proof (length_filter_delete (λ p, p.2 = ResumeSubmit) _ _ _ Hk) as Hdel.
  simpl in Hdel.
  set (s := set_activeInputIndex 0 (set_inputs (array_fill 6) (comp w))).
  assert (Hw' : w' = mkWorld (flush s) (delete k (pending w)) (log w ++ [Focus 0])).
  { subst w'. unfold step, dispatch, fire. rewrite Hk. done. }
  destruct (flush_fields s) as (Hi & Ha & Hl & _).
  rewrite Hw'. cbn [comp]. rewrite Hi, Ha.
  split; [done|]. split; [done|]. split.
  - unfold lifecycle. rewrite Hl. f_equal.
    destruct (decide (currentState (comp w) = st_error)) as [He|He].
    + transitivity (currentState s); [|done].
      apply flush_idle_currentState; [|done].
      simpl. by rewrite (inv_error0 He).
    + destruct (flush_currentState s) as [Hs | [Hs _]]; [done | done].
  - unfold in_flight. cbn [pending]. lia.
Qed.

Lemma clear_timer_erases_witness :
  inputs (comp retyping_world) = ["8"; "2"; "3"; "4"; "5"; "7"]
  ∧ inputs (comp (step retyping_world (EvTimer 0))) = array_fill 6
  ∧ lifecycle (comp (step retyping_world (EvTimer 0)))
    = lifecycle (comp retyping_world).
Proof.
  split; [reflexivity|].
  destruct (clear_timer_erases retyping_world 0 400 retyping_world_reachable
              eq_refl) as (Hi & _ & Hl & _).
  split; [exact Hi | exact Hl].
Defined.

End ControllerMore.

(** ** The cell component and the controller's markup *)

Module ViewFacts.
Import Js JsFacts Controller ControllerFacts View.

(** X14. Whatever its props, a cell carries exactly one of the three
    border classes, the error border taking precedence over the focus
    border, exactly one text colour and exactly one opacity. *)
Theorem cell_classes_exclusive (p : Cell.props) :
  Cell.border_classes p
  = [if Cell.hasError p then "border-error-main"
     else if Cell.isFocused p then "border-primary-main"
     else "border-neutral-border"]
  ∧ Cell.digit_classes p
    = [if Cell.hasError p then "text-error-main" else "text-primary-main";
       if truthy (Cell.value p) then "opacity-100" else "opacity-0"].
Proof.
  destruct p as [v f e i]. unfold Cell.border_classes, Cell.digit_classes.
  cbn [Cell.hasError Cell.isFocused Cell.value].
  destruct f, e, (truthy v); split; reflexivity.
Qed.

Lemma array_get_of_lookup (l : list string) (i : nat) (v : string) :
  l !! i = Some v → array_get l i = v.
Proof. intros H. unfold array_get. by rewrite H. Qed.

Lemma render_lookup (s : state) (i : nat) :
  render s !! i
  = (λ value, Cell.mkProps value
                (bool_decide (i = activeInputIndex s))
                (bool_decide (currentState s = st_error)) i)
    <$> inputs s !! i.
Proof. unfold render. apply list_lookup_imap. Qed.

(** X15. In every execution the controller renders six cells; the
    cell at [activeInputIndex], which is one of them, is the only one
    rendered as focused; and a cell rendered with the error flag shows
    no digit. *)
Theorem render_focus_and_error (w : world) :
  reachable w →
  length (render (comp w)) = 6
  ∧ is_Some (render (comp w) !! activeInputIndex (comp w))
  ∧ (∀ i p, render (comp w) !! i = Some p →
       Cell.index p = i
       ∧ Cell.value p = array_get (inputs (comp w)) i
       ∧ (Cell.isFocused p = true ↔ i = activeInputIndex (comp w))
       ∧ (Cell.hasError p = true → Cell.value p = "")).
Proof.
  intros Hr. pose proof (reachable_Inv w Hr) as HI.
  assert (Hlen : length (render (comp w)) = 6).
  { unfold render. rewrite length_imap. by destruct HI. }
  split; [done|]. split.
  - apply lookup_lt_is_Some_2. rewrite Hlen. destruct HI. lia.
  - intros i p. rewrite render_lookup.
    destruct (inputs (comp w) !! i) as [v|] eqn:Hv; [|done].
    intros [= <-]. cbn [Cell.index Cell.value Cell.isFocused Cell.hasError].
    split; [done|]. split; [by rewrite (array_get_of_lookup _ _ _ Hv)|].
    split; [apply bool_decide_eq_true|].
    intros He%bool_decide_eq_true.
    destruct HI as [_ _ Hcode Hl6 Hcells _ Herr _ _].
    pose proof (Herr He) as Hempty. rewrite Hcode in Hempty.
    apply length_join_lookup in Hv. rewrite Hempty in Hv. simpl in Hv.
    apply length_zero. lia.
Qed.

Lemma render_focus_and_error_witness :
  length (render (comp error_world)) = 6
  ∧ is_Some (render (comp error_world) !! activeInputIndex (comp error_world)).
Proof.
  destruct (render_focus_and_error error_world error_world_reachable)
    as (Hl & Hf & _).
  split; [exact Hl | exact Hf].
Defined.

End ViewFacts.

(** ** The page variant: invariant, paste, verification *)

Module PageMore.
Import Js JsFacts Page.

(** *** The block and the flush *)

Lemma block_fields (s : state) :
  digits (block s) = digits s
  ∧ currentCode (block s) = currentCode s
  ∧ currentState (block s) = currentState s
  ∧ isLoading (block s) = isLoading s
  ∧ statusText (block s) = statusText s
  ∧ digitsEntered (block s) = digitsEntered s
  ∧ digitsLeft (block s) = digitsLeft s
  ∧ isCodeComplete (block s) = isCodeComplete s.
Proof.
  unfold block.
  destruct (isLoading s) eqn:Hl; [by rewrite <- Hl|].
  repeat (destruct (bool_decide _)); by rewrite <- Hl.
Qed.

(** The block's verdict depends on [isLoading], [currentState] and
    [digitsLeft] only. *)
Lemma block_ext (s s' : state) :
  isLoading s' = isLoading s → currentState s' = currentState s →
  digitsLeft s' = digitsLeft s →
  buttonText s' = buttonText s → isButtonDisabled s' = isButtonDisabled s →
  block s = s → block s' = s'.
Proof.
  destruct s as [dg cc cs ld bt st bd de dl ic d1 d2 d3].
  destruct s' as [dg' cc' cs' ld' bt' st' bd' de' dl' ic' d1' d2' d3'].
  simpl. intros -> -> -> -> ->. unfold block; simpl.
  destruct ld; [intros [= <- <-]; done|].
  destruct (bool_decide (cs = st_success)); [intros [= <- <-]; done|].
  destruct (bool_decide (cs = st_error)); [intros [= <- <-]; done|].
  destruct (bool_decide (dl > 0)%Z); intros [= <- <-]; done.
Qed.

Lemma block_idem (s : state) : block (block s) = block s.
Proof.
  destruct s as [dg cc cs ld bt st bd de dl ic d1 d2 d3].
  unfold block; simpl.
  destruct ld; [done|]; simpl.
  destruct (bool_decide (cs = st_success)) eqn:H1; simpl; [by rewrite H1|].
  destruct (bool_decide (cs = st_error)) eqn:H2; simpl; [by rewrite H1, H2|].
  destruct (bool_decide (dl > 0)%Z) eqn:H3; simpl; by rewrite H1, H2, H3.
Qed.

Lemma page_flush_clean (s : state) :
  dirty_currentCode s = false → dirty_isLoading s = false →
  dirty_currentState s = false → flush s = s.
Proof.
  destruct s as [dg cc cs ld bt st bd de dl ic d1 d2 d3]; simpl.
  intros -> -> ->. unfold flush; simpl.
  rewrite (bool_decide_true (de = de)) by done.
  rewrite (bool_decide_true (dl = dl)) by done. done.
Qed.

Lemma page_flush_fields (s : state) :
  digits (flush s) = digits s
  ∧ currentCode (flush s) = currentCode s
  ∧ currentState (flush s) = currentState s
  ∧ isLoading (flush s) = isLoading s
  ∧ statusText (flush s) = statusText s.
Proof.
  unfold flush.
  set (s1 := set_reactive _ _ _ s).
  destruct (block_fields s1) as (H1 & H2 & H3 & H4 & H5 & _).
  destruct (_ || _); simpl; [|done].
  by rewrite H1, H2, H3, H4, H5.
Qed.

Lemma on_comp_flush_clean (w : world) :
  dirty_currentCode (comp w) = false → dirty_isLoading (comp w) = false →
  dirty_currentState (comp w) = false → on_comp flush w = w.
Proof.
  intros. destruct w as [s p l]. unfold on_comp; simpl in *.
  by rewrite page_flush_clean.
Qed.

(** *** The invariant *)

Lemma page_Inv_initial : Inv initial.
Proof. split; try reflexivity; simpl; repeat constructor. Qed.

Lemma page_PreInv_flush (w : world) : PreInv w → Inv (on_comp flush w).
Proof.
  intros [Hent Hleft Hblock Hlen Hcells Htasks].
  destruct (page_flush_fields (comp w)) as (Hd & Hc & Hs & Hl & _).
  assert (Hcomp : comp (on_comp flush w) = flush (comp w)) by done.
  assert (Hpend : pending (on_comp flush w) = pending w) by done.
  set (s := comp w) in *.
  set (de := if dirty_currentCode s then String.length (currentCode s)
             else digitsEntered s).
  set (dl := if bool_decide (de = digitsEntered s) then digitsLeft s
             else (6 - Z.of_nat de)%Z).
  set (icc := if dirty_currentCode s then test_six_digits (currentCode s)
              else isCodeComplete s).
  set (s1 := set_reactive de dl icc s).
  assert (Hde : de = String.length (currentCode s)).
  { subst de. destruct (dirty_currentCode s); [done | by apply Hent]. }
  assert (Hdl : dl = (6 - Z.of_nat de)%Z).
  { subst dl. case_bool_decide as He; [|done]. by rewrite He. }
  assert (Hicc : icc = test_six_digits (currentCode s)).
  { subst icc. destruct (dirty_currentCode s); [done | by apply Hent]. }
  assert (Hflush : flush s
            = clear_dirty (if dirty_isLoading s || dirty_currentState s
                              || negb (bool_decide (dl = digitsLeft s))
                           then block s1 else s1)) by done.
  destruct (block_fields s1) as (_ & B2 & _ & _ & _ & B6 & B7 & B8).
  split; rewrite ?Hcomp, ?Hpend; try done.
  - rewrite Hflush. destruct (_ || _); simpl; [by rewrite B6, B2|done].
  - rewrite Hflush. destruct (_ || _); simpl; [by rewrite B7, B6|done].
  - rewrite Hflush. destruct (_ || _); simpl; [by rewrite B8, B2|done].
  - rewrite Hflush.
    destruct (dirty_isLoading s || dirty_currentState s
              || negb (bool_decide (dl = digitsLeft s))) eqn:Hrun.
    + apply (block_ext (block s1)); try done. apply block_idem.
    + apply orb_false_elim in Hrun as [Hrun Hsame].
      apply orb_false_elim in Hrun as [H1 H2].
      apply negb_false_iff, bool_decide_eq_true in Hsame.
      apply (block_ext s); try done. by apply Hblock.
  - by rewrite Hd.
  - by rewrite Hd.
Qed.

(** A handler step that leaves the reactive variables and the button
    alone and invalidates what it assigns. *)
Lemma page_PreInv_edit (w w' : world) :
  PreInv w →
  (dirty_currentCode (comp w') = false →
   dirty_currentCode (comp w) = false
   ∧ currentCode (comp w') = currentCode (comp w)) →
  digitsEntered (comp w') = digitsEntered (comp w) →
  digitsLeft (comp w') = digitsLeft (comp w) →
  isCodeComplete (comp w') = isCodeComplete (comp w) →
  (dirty_isLoading (comp w') = false →
   dirty_isLoading (comp w) = false ∧ isLoading (comp w') = isLoading (comp w)) →
  (dirty_currentState (comp w') = false →
   dirty_currentState (comp w) = false
   ∧ currentState (comp w') = currentState (comp w)) →
  buttonText (comp w') = buttonText (comp w) →
  isButtonDisabled (comp w') = isButtonDisabled (comp w) →
  length (digits (comp w')) = 6 →
  Forall Controller.cell_ok (digits (comp w')) →
  Forall (λ p, task_ok p.2) (pending w') →
  PreInv w'.
Proof.
  intros [Hent Hleft Hblock Hlen Hcells Htasks] Hcc Hde Hdl Hic Hld Hcs Hbt Hbd
         Hlen' Hcells' Htasks'.
  split; try done.
  - intros Hclean. destruct (Hcc Hclean) as [Hold Hsame].
    rewrite Hde, Hic, Hsame. by apply Hent.
  - by rewrite Hdl, Hde.
  - intros H1 H2. destruct (Hld H1) as [H1' Hl]. destruct (Hcs H2) as [H2' Hs].
    apply (block_ext (comp w)); try done. by apply Hblock.
Qed.

Lemma page_Inv_PreInv (w : world) : Inv w → PreInv w.
Proof. intros []. split; done. Qed.

(** Each elementary step of a handler keeps [PreInv]. *)

Lemma PreInv_animate (w : world) (i : nat) (d : string) :
  PreInv w → Controller.cell_ok d → PreInv (on_comp (animateDigitDrop i d) w).
Proof.
  intros H Hd. pose proof H as [].
  apply (page_PreInv_edit w); try done;
    unfold on_comp, animateDigitDrop; simpl; case_decide; simpl; try done.
  - by rewrite length_insert.
  - by apply Forall_insert.
Qed.

Lemma PreInv_clearDigit (w : world) (i : nat) :
  PreInv w → PreInv (on_comp (clearDigit i) w).
Proof.
  intros H. pose proof H as [].
  apply (page_PreInv_edit w); try done;
    unfold on_comp, clearDigit; simpl; case_decide; simpl; try done.
  - by rewrite length_insert.
  - apply Forall_insert; [done | by left].
Qed.

Lemma PreInv_updateCurrentCode (w : world) :
  PreInv w → PreInv (on_comp updateCurrentCode w).
Proof.
  intros H. pose proof H as [].
  apply (page_PreInv_edit w); try done.
  unfold on_comp, updateCurrentCode; simpl.
  intros [Hd Hc]%orb_false_elim.
  apply negb_false_iff, bool_decide_eq_true in Hc. done.
Qed.

Lemma PreInv_emit (w : world) (e : effect) : PreInv w → PreInv (emit e w).
Proof. intros H. pose proof H as []. by apply (page_PreInv_edit w). Qed.

Lemma PreInv_setTimeout (w : world) (t : task) (ms : nat) :
  PreInv w → task_ok t → PreInv (setTimeout t ms w).
Proof.
  intros H Ht. pose proof H as []. apply (page_PreInv_edit w); try done.
  unfold setTimeout; simpl. apply Forall_app. split; [done|].
  by constructor.
Qed.

Lemma PreInv_set_isLoading (w : world) (b : bool) :
  PreInv w → PreInv (on_comp (set_isLoading b) w).
Proof.
  intros H. pose proof H as [].
  apply (page_PreInv_edit w); try done.
  unfold on_comp; simpl.
  intros [Hd Hc]%orb_false_elim.
  apply negb_false_iff, bool_decide_eq_true in Hc. done.
Qed.

Lemma PreInv_setState (w : world) (c : status) (m : string) :
  PreInv w → PreInv (on_comp (setState c m) w).
Proof.
  intros H. pose proof H as [].
  apply (page_PreInv_edit w); try done;
    unfold on_comp, setState; simpl; destruct (truthy m); simpl; try done;
    intros [Hd Hc]%orb_false_elim;
    apply negb_false_iff, bool_decide_eq_true in Hc; done.
Qed.

Lemma page_handleSubmit_PreInv (w : world) : PreInv w → PreInv (handleSubmit w).
Proof.
  intros H. unfold handleSubmit.
  destruct (isCodeComplete (comp w)); simpl.
  - apply PreInv_setTimeout; [by apply PreInv_set_isLoading | done].
  - by apply PreInv_setState.
Qed.

Lemma resumeVerification_PreInv (w : world) :
  PreInv w → PreInv (resumeVerification w).
Proof.
  intros H. unfold resumeVerification.
  destruct (bool_decide _).
  - by apply PreInv_setState, PreInv_set_isLoading.
  - by apply PreInv_emit, PreInv_setState, PreInv_set_isLoading.
Qed.

Lemma page_handleInput_PreInv (w : world) (i : nat) (v : string) :
  PreInv w → PreInv (handleInput i v w).
Proof.
  intros H. unfold handleInput.
  destruct (test_digit v) eqn:Hv; simpl; [|done].
  assert (H2 : PreInv (on_comp updateCurrentCode
                         (on_comp (animateDigitDrop i v) w))).
  { apply PreInv_updateCurrentCode, PreInv_animate; [done | by right]. }
  set (w3 := if truthy v && _ then _ else _).
  assert (H3 : PreInv w3).
  { subst w3. destruct (truthy v && _); [by apply PreInv_emit | done]. }
  destruct (isCodeComplete (comp w3)); [by apply PreInv_setTimeout | done].
Qed.

Lemma page_handleKeydown_PreInv (w : world) (i : nat) (key : string) :
  PreInv w → PreInv (handleKeydown i key w).
Proof.
  intros H. unfold handleKeydown.
  set (w1 := if bool_decide (key = "Backspace") then _ else w).
  assert (H1 : PreInv w1).
  { subst w1. destruct (bool_decide (key = "Backspace")); [|done].
    apply PreInv_updateCurrentCode.
    destruct (negb _ && bool_decide (0 < i));
      [by apply PreInv_emit, PreInv_clearDigit | by apply PreInv_clearDigit]. }
  clearbody w1.
  set (w2 := if bool_decide (key = "ArrowLeft") && _ then _ else w1).
  assert (H2 : PreInv w2).
  { subst w2. destruct (bool_decide (key = "ArrowLeft") && _);
      [by apply PreInv_emit | done]. }
  clearbody w2.
  set (w3 := if bool_decide (key = "ArrowRight") && _ then _ else w2).
  assert (H3 : PreInv w3).
  { subst w3. destruct (bool_decide (key = "ArrowRight") && _);
      [by apply PreInv_emit | done]. }
  clearbody w3.
  destruct (bool_decide (key = "Enter") && _);
    [by apply page_handleSubmit_PreInv | done].
Qed.

Lemma foldl_PreInv {A} (f : world → A → world) (l : list A) (w : world) :
  (∀ acc x, x ∈ l → PreInv acc → PreInv (f acc x)) →
  PreInv w → PreInv (foldl f w l).
Proof.
  revert w. induction l as [|x l IH]; intros w Hf Hw; [done|].
  simpl. apply IH.
  - intros acc y Hy. apply Hf. by right.
  - apply Hf; [by left | done].
Qed.

Lemma clear_all_on_comp (w : world) (l : list nat) :
  on_comp (λ s, foldl (λ acc i, clearDigit i acc) s l) w
  = foldl (λ acc i, on_comp (clearDigit i) acc) w l.
Proof.
  revert w. induction l as [|i l IH]; intros [s p lg]; [done|].
  simpl. rewrite <- IH. done.
Qed.

Lemma page_handlePaste_PreInv (w : world) (i : nat) (text : string) :
  PreInv w → PreInv (handlePaste i text w).
Proof.
  intros H. unfold handlePaste.
  destruct (bool_decide (0 < _)); [|done].
  apply PreInv_setTimeout; [|done].
  apply foldl_PreInv.
  - intros acc j Hj%elem_of_seq Hacc. apply PreInv_setTimeout; [done|].
    simpl. right. apply char_at_digit; [apply all_digits_strip | lia].
  - rewrite clear_all_on_comp. apply foldl_PreInv; [|done].
    intros acc j _ Hacc. by apply PreInv_clearDigit.
Qed.

Lemma pasteDone_PreInv (w : world) (len : nat) :
  PreInv w → PreInv (pasteDone len w).
Proof.
  intros H. unfold pasteDone.
  assert (H2 : PreInv (emit (Focus (len `min` (6 - 1)))
                         (on_comp updateCurrentCode w)))
    by by apply PreInv_emit, PreInv_updateCurrentCode.
  destruct (bool_decide _); [by apply PreInv_setTimeout | done].
Qed.

Lemma page_fire_PreInv (w : world) (k : nat) : PreInv w → PreInv (fire k w).
Proof.
  intros H. unfold fire.
  destruct (pending w !! k) as [[ms t]|] eqn:Hk; [|done].
  pose proof H as [].
  assert (Ht : task_ok t)
    by exact (Forall_lookup_1 _ _ _ _ pre_tasks0 Hk).
  assert (H' : PreInv (mkWorld (comp w) (delete k (pending w)) (log w))).
  { apply (page_PreInv_edit w); try done. simpl. by apply Forall_delete. }
  destruct t; simpl.
  - by apply PreInv_animate.
  - by apply pasteDone_PreInv.
  - by apply page_handleSubmit_PreInv.
  - by apply resumeVerification_PreInv.
Qed.

Lemma page_dispatch_PreInv (w : world) (ev : event) :
  PreInv w → PreInv (dispatch ev w).
Proof.
  intros H. destruct ev as [i v|i k|i t| |k]; simpl.
  - by apply page_handleInput_PreInv.
  - by apply page_handleKeydown_PreInv.
  - unfold handleGlobalPaste. by apply page_handlePaste_PreInv, page_handlePaste_PreInv.
  - destruct (isButtonDisabled (comp w)); [done | by apply page_handleSubmit_PreInv].
  - by apply page_fire_PreInv.
Qed.

Lemma page_Inv_step (w : world) (ev : event) : Inv w → Inv (step w ev).
Proof. intros H. by apply page_PreInv_flush, page_dispatch_PreInv, page_Inv_PreInv. Qed.

Lemma page_reachable_Inv (w : world) : reachable w → Inv w.
Proof.
  induction 1 as [|w ev _ IH _]; [apply page_Inv_initial | by apply page_Inv_step].
Qed.

Lemma page_reachable_run (w : world) (evs : list event) :
  reachable w → Forall valid_event evs → reachable (run w evs).
Proof.
  intros Hw Hevs. revert w Hw.
  induction Hevs as [|ev evs Hev _ IH]; intros w Hw; [done|].
  simpl. apply IH. by apply reachable_step.
Qed.

Lemma page_error_world_reachable : reachable error_world.
Proof. apply page_reachable_run; [constructor|]. repeat constructor. Qed.

Lemma page_verifying_world_reachable : reachable verifying_world.
Proof.
  apply page_reachable_run; [|repeat constructor].
  apply page_reachable_run; [constructor|]. repeat constructor.
Qed.

Lemma page_typed_world_reachable : reachable typed_world.
Proof. apply page_reachable_run; [constructor|]. repeat constructor. Qed.

(** *** No way back to the default state *)

Lemma setState_non_default (w : world) (c : status) (m : string) :
  c ≠ st_default → currentState (comp (on_comp (setState c m) w)) ≠ st_default.
Proof. intros Hc. unfold on_comp, setState; simpl. by destruct (truthy m). Qed.

Lemma handleSubmit_non_default (w : world) :
  currentState (comp w) ≠ st_default →
  currentState (comp (handleSubmit w)) ≠ st_default.
Proof.
  intros H. unfold handleSubmit.
  destruct (isCodeComplete (comp w)); simpl; done.
Qed.

Lemma handlePaste_currentState (w : world) (i : nat) (text : string) :
  currentState (comp (handlePaste i text w)) = currentState (comp w).
Proof.
  unfold handlePaste. destruct (bool_decide (0 < _)); [|done].
  unfold setTimeout at 1. cbn [comp].
  set (f := λ acc j, setTimeout _ _ acc).
  assert (Hf : ∀ l a, currentState (comp (foldl f a l)) = currentState (comp a)).
  { induction l as [|j l IH]; intros a; [done|]. simpl. by rewrite IH. }
  rewrite Hf. unfold on_comp. cbn [comp].
  assert (Hc : ∀ l s, currentState (foldl (λ acc j, clearDigit j acc) s l)
                      = currentState s).
  { induction l as [|j l IH]; intros a; [done|]. simpl. rewrite IH.
    unfold clearDigit. by destruct (decide _). }
  by rewrite Hc.
Qed.

Lemma dispatch_non_default (w : world) (ev : event) :
  currentState (comp w) ≠ st_default →
  currentState (comp (dispatch ev w)) ≠ st_default.
Proof.
  intros H. destruct ev as [i v|i k|i t| |k]; simpl.
  - unfold handleInput. destruct (test_digit v); simpl; [|done].
    set (w3 := if truthy v && _ then _ else _).
    assert (H3 : currentState (comp w3) = currentState (comp w)).
    { subst w3. unfold animateDigitDrop.
      destruct (truthy v && _); simpl; by destruct (decide _). }
    destruct (isCodeComplete (comp w3)); simpl; by rewrite H3.
  - unfold handleKeydown.
    set (w1 := if bool_decide (k = "Backspace") then _ else w).
    assert (H1 : currentState (comp w1) = currentState (comp w)).
    { subst w1. destruct (bool_decide (k = "Backspace")); [|done].
      unfold clearDigit.
      destruct (negb _ && bool_decide (0 < i)); simpl; by destruct (decide _). }
    clearbody w1.
    set (w2 := if bool_decide (k = "ArrowLeft") && _ then _ else w1).
    assert (H2 : currentState (comp w2) = currentState (comp w))
      by (subst w2; by destruct (bool_decide (k = "ArrowLeft") && _)).
    clearbody w2.
    set (w3 := if bool_decide (k = "ArrowRight") && _ then _ else w2).
    assert (H3 : currentState (comp w3) = currentState (comp w))
      by (subst w3; by destruct (bool_decide (k = "ArrowRight") && _)).
    clearbody w3.
    destruct (bool_decide (k = "Enter") && _); [|by rewrite H3].
    apply handleSubmit_non_default. by rewrite H3.
  - unfold handleGlobalPaste. by rewrite !handlePaste_currentState.
  - destruct (isButtonDisabled (comp w)); [done|].
    by apply handleSubmit_non_default.
  - unfold fire. destruct (pending w !! k) as [[ms t]|]; [|done].
    destruct t; simpl.
    + unfold animateDigitDrop. by destruct (decide _).
    + unfold pasteDone. by destruct (bool_decide _).
    + by apply handleSubmit_non_default.
    + unfold resumeVerification. destruct (bool_decide _); simpl; done.
Qed.

(** X16. The page variant has no way back to the default state: once
    [currentState] is [success] or [error], no sequence of keystrokes,
    pastes, clicks and timers makes it [default] again. *)
Theorem no_return_to_default (w : world) (evs : list event) :
  currentState (comp w) ≠ st_default →
  currentState (comp (run w evs)) ≠ st_default.
Proof.
  revert w. induction evs as [|ev evs IH]; intros w H; [done|].
  simpl. apply IH. unfold step.
  destruct (page_flush_fields (comp (dispatch ev w))) as (_ & _ & Hs & _).
  change (currentState (flush (comp (dispatch ev w))) ≠ st_default).
  rewrite Hs. by apply dispatch_non_default.
Qed.

Lemma no_return_to_default_witness :
  currentState (comp error_world) = st_error
  ∧ currentState
      (comp (run error_world
               [EvKeydown 5 "Backspace"; EvInput 5 "6"; EvPaste 0 "12"]))
    ≠ st_default.
Proof.
  split; [reflexivity|].
  apply (no_return_to_default error_world). vm_compute. discriminate.
Defined.

(** *** What every reachable state satisfies *)

Lemma block_fixed_button (s : state) :
  block s = s →
  isButtonDisabled s
  = isLoading s
    || (bool_decide (currentState s = st_default)
        && bool_decide (digitsLeft s > 0)%Z)
  ∧ (isLoading s = false → currentState s = st_success →
     buttonText s = "Let's go!")
  ∧ (isLoading s = false → currentState s = st_error →
     buttonText s = "Wrong code!").
Proof.
  destruct s as [dg cc cs ld bt st bd de dl ic d1 d2 d3].
  unfold block; simpl.
  destruct ld; [intros [= <- <-]; done|].
  destruct cs; simpl.
  - destruct (bool_decide (dl > 0)%Z); intros [= <- <-]; done.
  - intros [= <- <-]. done.
  - intros [= <- <-]. done.
Qed.

(** X17. In every execution of the page variant there are six digit
    displays, each empty or showing one digit; [isCodeComplete] says
    whether [currentCode] is six digits; and the button is disabled
    exactly while a verification is under way or while the component
    is in its default state with fewer than six characters in the
    code. *)
Theorem page_reachable_wellformed (w : world) :
  reachable w →
  length (digits (comp w)) = 6
  ∧ Forall Controller.cell_ok (digits (comp w))
  ∧ isCodeComplete (comp w) = test_six_digits (currentCode (comp w))
  ∧ isButtonDisabled (comp w)
    = isLoading (comp w)
      || (bool_decide (currentState (comp w) = st_default)
          && bool_decide (String.length (currentCode (comp w)) < 6)).
Proof.
  intros Hr. pose proof (page_reachable_Inv w Hr) as [].
  split; [done|]. split; [done|]. split; [done|].
  destruct (block_fixed_button (comp w) inv_block0) as [Hb _].
  rewrite Hb, inv_left0, inv_entered0. f_equal. f_equal.
  apply bool_decide_ext. lia.
Qed.

Lemma page_reachable_wellformed_witness :
  isButtonDisabled (comp verifying_world) = true
  ∧ isButtonDisabled (comp error_world) = false.
Proof.
  destruct (page_reachable_wellformed verifying_world
              page_verifying_world_reachable) as (_ & _ & _ & H1).
  destruct (page_reachable_wellformed error_world
              page_error_world_reachable) as (_ & _ & _ & H2).
  split; [exact H1 | exact H2].
Defined.

(** *** The outcome of a verification *)

(** X18. When a suspended verification resumes, the loading flag
    drops, the digits and the code are kept, and the status text is the
    default one.  If the code is the correct one the component is in
    [success] and the button reads "Let's go!"; otherwise it is in
    [error], the group shakes and the button reads "Wrong code!".  The
    button is enabled in both cases. *)
Theorem verification_outcome (w : world) (k ms : nat) :
  reachable w → pending w !! k = Some (ms, ResumeVerification) →
  let w' := step w (EvTimer k) in
  (isLoading (comp w') = false
   ∧ digits (comp w') = digits (comp w)
   ∧ currentCode (comp w') = currentCode (comp w)
   ∧ statusText (comp w') = DEFAULT_STATUS_TEXT
   ∧ isButtonDisabled (comp w') = false
   ∧ pending w' = delete k (pending w))
  ∧ (currentCode (comp w) = correctCode →
     lifecycle (comp w') = Success
     ∧ buttonText (comp w') = "Let's go!" ∧ log w' = log w)
  ∧ (currentCode (comp w) ≠ correctCode →
     lifecycle (comp w') = Error
     ∧ buttonText (comp w') = "Wrong code!" ∧ log w' = log w ++ [Shake]).
Proof.
  intros Hr Hk w'.
  assert (Hr' : reachable w') by (by apply reachable_step).
  pose proof (page_reachable_Inv w' Hr') as [].
  destruct (block_fixed_button (comp w') inv_block0) as (Hb & Hsucc & Herr).
  set (w0 := mkWorld (comp w) (delete k (pending w)) (log w)).
  assert (Hw' : w' = on_comp flush (resumeVerification w0)).
  { subst w'. unfold step, dispatch, fire. rewrite Hk. done. }
  destruct (page_flush_fields (comp (resumeVerification w0)))
    as (Hd & Hc & Hs & Hl & Ht).
  assert (Hcomp : comp w' = flush (comp (resumeVerification w0)))
    by (by rewrite Hw').
  assert (Hfix : isLoading (comp w') = false
                 ∧ digits (comp w') = digits (comp w)
                 ∧ currentCode (comp w') = currentCode (comp w)
                 ∧ statusText (comp w') = DEFAULT_STATUS_TEXT
                 ∧ currentState (comp w')
                   = (if bool_decide (currentCode (comp w) = correctCode)
                      then st_success else st_error)
                 ∧ pending w' = delete k (pending w)
                 ∧ log w'
                   = (if bool_decide (currentCode (comp w) = correctCode)
                      then log w else log w ++ [Shake])).
  { rewrite Hcomp, Hd, Hc, Hs, Hl, Ht, Hw'. unfold resumeVerification.
    subst w0. cbn [on_comp comp set_isLoading currentCode].
    destruct (bool_decide (currentCode (comp w) = correctCode)); done. }
  destruct Hfix as (F1 & F2 & F3 & F4 & F5 & F6 & F7).
  assert (Hen : isButtonDisabled (comp w') = false).
  { rewrite Hb, F1, F5. by destruct (bool_decide (currentCode _ = _)). }
  split; [done|]. split.
  - intros Heq. rewrite bool_decide_true in F5, F7 by done.
    split; [by unfold lifecycle; rewrite F1, F5|]. split; [by apply Hsucc | done].
  - intros Hne. rewrite bool_decide_false in F5, F7 by done.
    split; [by unfold lifecycle; rewrite F1, F5|]. split; [by apply Herr | done].
Qed.

Lemma verification_outcome_witness :
  lifecycle (comp (step verifying_world (EvTimer 0))) = Success
  ∧ buttonText (comp (step verifying_world (EvTimer 0))) = "Let's go!".
Proof.
  destruct (verification_outcome verifying_world 0 1500
              page_verifying_world_reachable eq_refl) as (_ & H & _).
  destruct (H eq_refl) as (Hl & Hb & _).
  split; [exact Hl | exact Hb].
Defined.

(** *** A paste, from the event to the last of its timers *)

Lemma pasted_digits_length (d : string) (k : nat) :
  k ≤ 6 → length (pasted_digits d k) = 6.
Proof.
  intros Hk. unfold pasted_digits.
  rewrite length_app, length_map, length_seq, length_replicate. lia.
Qed.

Lemma pasted_digits_S (d : string) (k : nat) :
  k < 6 → <[k:=char_at d k]> (pasted_digits d k) = pasted_digits d (S k).
Proof.
  intros Hk. unfold pasted_digits.
  rewrite insert_app_r_alt by (rewrite length_map, length_seq; lia).
  rewrite length_map, length_seq, Nat.sub_diag.
  rewrite seq_S, map_app, <- app_assoc.
  replace (6 - k) with (S (6 - S k)) by lia. done.
Qed.

Lemma pasted_digits_ok (d : string) (k : nat) :
  all_digits d = true → k ≤ String.length d →
  Forall Controller.cell_ok (pasted_digits d k)
  ∧ Controller.filled (pasted_digits d k) = k.
Proof.
  intros Hd Hk. unfold pasted_digits.
  assert (Hm : Forall (λ c, test_digit c = true) (map (char_at d) (seq 0 k))).
  { apply Forall_forall. intros c [j [-> Hj%elem_of_seq]]%list_elem_of_fmap.
    apply char_at_digit; [done | lia]. }
  split.
  - apply Forall_app. split.
    + eapply Forall_impl; [exact Hm|]. intros c Hc. by right.
    + apply Forall_replicate. by left.
  - unfold Controller.filled. rewrite filter_app, length_app.
    change (Controller.filled (map (char_at d) (seq 0 k))
            + Controller.filled (replicate (6 - k) "") = k).
    rewrite (ControllerMore.filled_digits _ Hm), length_map, length_seq.
    assert (Hz : ∀ m, Controller.filled (replicate m "") = 0).
    { induction m as [|m IH]; [done|]. simpl.
      by rewrite ControllerFacts.filled_cons, IH. }
    rewrite Hz. lia.
Qed.

Lemma all_digits_append (a b : string) :
  all_digits (a +:+ b) = all_digits a && all_digits b.
Proof.
  induction a as [|c a IH]; simpl; [done|]. rewrite IH. by rewrite andb_assoc.
Qed.

Lemma all_digits_join (l : list string) :
  Forall Controller.cell_ok l → all_digits (join l) = true.
Proof.
  induction 1 as [|c l [->|Hc] _ IH]; simpl; [done|done|].
  rewrite all_digits_append, IH, andb_true_r.
  destruct c as [|a [|b c]]; simpl in *; try done. by rewrite Hc.
Qed.

Lemma pasted_code_complete (d : string) :
  all_digits d = true →
  test_six_digits (join (pasted_digits d (String.length d `min` 6)))
  = bool_decide (6 ≤ String.length d).
Proof.
  intros Hd.
  destruct (pasted_digits_ok d (String.length d `min` 6) Hd ltac:(lia))
    as [Hok Hfill].
  unfold test_six_digits.
  rewrite (all_digits_join _ Hok), andb_true_r.
  rewrite (ControllerFacts.filled_join _ Hok), Hfill.
  apply bool_decide_ext. lia.
Qed.

Lemma schedule_drops (d : string) (l : list nat) (w : world) :
  foldl (λ acc i, setTimeout (DropDigit i (char_at d i)) (i * 100) acc) w l
  = mkWorld (comp w)
            (pending w ++ map (λ i, (i * 100, DropDigit i (char_at d i))) l)
            (log w).
Proof.
  revert w. induction l as [|j l IH]; intros [s p lg]; simpl.
  - by rewrite app_nil_r.
  - rewrite IH. unfold setTimeout; simpl. by rewrite <- app_assoc.
Qed.

Lemma clear_all (s : state) :
  length (digits s) = 6 →
  foldl (λ acc i, clearDigit i acc) s (seq 0 6) = set_digits (replicate 6 "") s.
Proof.
  destruct s as [dg cc cs ld bt st bd de dl ic d1 d2 d3]; simpl. intros Hlen.
  destruct dg as [|a1 [|a2 [|a3 [|a4 [|a5 [|a6 [|a7 dg]]]]]]]; try discriminate.
  reflexivity.
Qed.

Lemma handlePaste_world (w : world) (i : nat) (text : string) :
  length (digits (comp w)) = 6 →
  0 < String.length (strip_non_digits text) →
  handlePaste i text w
  = mkWorld (set_digits (replicate 6 "") (comp w))
            (pending w
             ++ drop_timers (strip_non_digits text) 0
                  (String.length (strip_non_digits text) `min` 6)
             ++ [(String.length (strip_non_digits text) * 100 + 200,
                  PasteDone (String.length (strip_non_digits text)))])
            (log w).
Proof.
  intros Hlen Hpos. unfold handlePaste.
  rewrite bool_decide_true by done.
  rewrite schedule_drops. unfold setTimeout, on_comp. cbn [comp pending log].
  rewrite clear_all by done. by rewrite <- app_assoc.
Qed.

(** The two listeners of one paste event. *)
Lemma paste_event_world (w : world) (i : nat) (text : string) :
  length (digits (comp w)) = 6 → pending w = [] →
  0 < String.length (strip_non_digits text) →
  dispatch (EvPaste i text) w
  = mkWorld (set_digits (replicate 6 "") (comp w))
            (drop_timers (strip_non_digits text) 0
               (String.length (strip_non_digits text) `min` 6)
             ++ (String.length (strip_non_digits text) * 100 + 200,
                 PasteDone (String.length (strip_non_digits text)))
             :: (drop_timers (strip_non_digits text) 0
                   (String.length (strip_non_digits text) `min` 6)
                 ++ [(String.length (strip_non_digits text) * 100 + 200,
                      PasteDone (String.length (strip_non_digits text)))]))
            (log w).
Proof.
  intros Hlen Hp Hpos. cbn [dispatch]. unfold handleGlobalPaste.
  rewrite (handlePaste_world w) by done.
  rewrite handlePaste_world by done.
  cbn [comp pending log]. rewrite Hp. cbn [app].
  rewrite <- app_assoc. done.
Qed.

Lemma pasted_digits_lookup (d : string) (k j : nat) :
  j < k → pasted_digits d k !! j = Some (char_at d j).
Proof.
  intros Hj. unfold pasted_digits.
  rewrite lookup_app_l by (rewrite length_map, length_seq; lia).
  rewrite list_lookup_fmap, lookup_seq_lt by lia. done.
Qed.

Lemma lookup_behind {A} (l1 l3 : list A) (a x : A) :
  (l1 ++ a :: x :: l3) !! S (List.length l1) = Some x.
Proof. induction l1 as [|y l1 IH]; simpl; done. Qed.

Lemma delete_behind {A} (l1 l3 : list A) (a x : A) :
  delete (S (List.length l1)) (l1 ++ a :: x :: l3) = l1 ++ a :: l3.
Proof. induction l1 as [|y l1 IH]; simpl; [done | by rewrite IH]. Qed.

Lemma drop_timers_S (d : string) (a m : nat) :
  drop_timers d a (S m)
  = (a * 100, DropDigit a (char_at d a)) :: drop_timers d (S a) m.
Proof. done. Qed.

Lemma drop_timers_length (d : string) (a m : nat) :
  List.length (drop_timers d a m) = m.
Proof. unfold drop_timers. by rewrite length_map, length_seq. Qed.

(** One digit of the paste: the first set's timer writes it, the
    second set's writes it again. *)
Lemma paste_round (d : string) (n j : nat) (s : state)
    (done1 : nat * task) (rest : list (nat * task)) (lg : list effect) :
  dirty_currentCode s = false → dirty_isLoading s = false →
  dirty_currentState s = false → j < n → n ≤ 6 →
  run (mkWorld (set_digits (pasted_digits d j) s)
               (drop_timers d j (n - j)
                ++ done1 :: (drop_timers d j (n - j) ++ rest))
               lg)
      [EvTimer 0; EvTimer (n - j)]
  = mkWorld (set_digits (pasted_digits d (S j)) s)
            (drop_timers d (S j) (n - S j)
             ++ done1 :: (drop_timers d (S j) (n - S j) ++ rest))
            lg.
Proof.
  intros H1 H2 H3 Hj Hn.
  replace (n - j) with (S (n - S j)) by lia.
  set (m := n - S j). rewrite !drop_timers_S.
  set (x := (j * 100, DropDigit j (char_at d j))).
  set (D := drop_timers d (S j) m).
  assert (HD : List.length D = m) by apply drop_timers_length.
  cbn [run foldl].
  assert (Hfirst :
    step (mkWorld (set_digits (pasted_digits d j) s)
                  ((x :: D) ++ done1 :: ((x :: D) ++ rest)) lg)
         (EvTimer 0)
    = mkWorld (set_digits (pasted_digits d (S j)) s)
              (D ++ done1 :: x :: (D ++ rest)) lg).
  { unfold step, dispatch, fire.
    cbn [app pending lookup list_lookup delete list_delete comp log].
    subst x. cbn [run_task].
    unfold on_comp at 2. cbn [comp pending log].
    unfold animateDigitDrop. cbn [digits set_digits].
    rewrite decide_True by (rewrite pasted_digits_length; lia).
    rewrite pasted_digits_S by lia.
    by rewrite on_comp_flush_clean. }
  rewrite Hfirst. clear Hfirst.
  unfold step, dispatch, fire. cbn [pending comp log].
  clearbody D. clearbody m. subst m.
  rewrite lookup_behind, delete_behind.
  subst x. cbn [run_task].
  unfold on_comp at 2. cbn [comp pending log].
  unfold animateDigitDrop. cbn [digits set_digits].
  rewrite decide_True by (rewrite pasted_digits_length; lia).
  rewrite list_insert_id by (apply pasted_digits_lookup; lia).
  rewrite on_comp_flush_clean by done.
  done.
Qed.

Lemma paste_rounds (d : string) (n m j : nat) (s : state)
    (done1 : nat * task) (rest : list (nat * task)) (lg : list effect) :
  dirty_currentCode s = false → dirty_isLoading s = false →
  dirty_currentState s = false → j + m = n → n ≤ 6 →
  run (mkWorld (set_digits (pasted_digits d j) s)
               (drop_timers d j (n - j)
                ++ done1 :: (drop_timers d j (n - j) ++ rest))
               lg)
      (flat_map (λ j', [EvTimer 0; EvTimer (n - j')]) (seq j m))
  = mkWorld (set_digits (pasted_digits d n) s) (done1 :: rest) lg.
Proof.
  intros H1 H2 H3. revert j. induction m as [|m IH]; intros j Hjm Hn.
  - replace j with n by lia. by rewrite Nat.sub_diag.
  - cbn [seq flat_map]. unfold run. rewrite foldl_app.
    fold (run (mkWorld (set_digits (pasted_digits d j) s)
                 (drop_timers d j (n - j)
                  ++ done1 :: (drop_timers d j (n - j) ++ rest)) lg)
              [EvTimer 0; EvTimer (n - j)]).
    rewrite paste_round by (try done; lia).
    apply IH; lia.
Qed.

Lemma paste_timers_valid (n : nat) : Forall valid_event (paste_timers n).
Proof.
  unfold paste_timers. apply Forall_app. split; [|by repeat constructor].
  induction (seq 0 n) as [|j l IH]; simpl; [done|]. by repeat constructor.
Qed.

(** X19. A paste in the page variant, followed to the end.  The paste
    event runs [handlePaste] twice, once for each of its two
    listeners.  From a resting component with no timer pending, the
    event and its timers, fired in the order of their delays, leave
    the pasted digits, at most six, in the cells from the first one
    on, whatever cell was pasted into and whatever the cells held, the
    remaining cells empty; the code is the concatenation of the cells;
    the focus is sent to cell [min len 5], twice; and when six or more
    digits were pasted two submissions are scheduled, none
    otherwise. *)
Theorem paste_then_timers (w : world) (i : nat) (text : string) :
  reachable w → pending w = [] → i < 6 →
  let d := strip_non_digits text in
  0 < String.length d →
  let n := String.length d `min` 6 in
  let w' := run w (EvPaste i text :: paste_timers n) in
  digits (comp w') = pasted_digits d n
  ∧ currentCode (comp w') = join (pasted_digits d n)
  ∧ isCodeComplete (comp w') = bool_decide (6 ≤ String.length d)
  ∧ pending w'
    = (if bool_decide (6 ≤ String.length d)
       then [(500, Submit); (500, Submit)] else [])
  ∧ log w'
    = log w ++ [Focus (String.length d `min` 5); Focus (String.length d `min` 5)].
Proof.
  intros Hr Hp Hi d Hpos n w'.
  pose proof (page_reachable_Inv w Hr) as HI.
  assert (Hr' : reachable w').
  { apply page_reachable_run; [done|]. constructor; [done|].
    apply paste_timers_valid. }
  pose proof (page_reachable_Inv w' Hr') as HI'.
  destruct HI as [D1 D2 D3 _ _ _ _ Hlen _ _].
  set (s0 := comp w) in *.
  set (dn := (String.length d * 100 + 200, PasteDone (String.length d))).
  set (s1 := set_digits (pasted_digits d n) s0).
  assert (Hmid :
    run (step w (EvPaste i text))
        (flat_map (λ j, [EvTimer 0; EvTimer (n - j)]) (seq 0 n))
    = mkWorld s1 [dn; dn] (log w)).
  { unfold step. rewrite paste_event_world by done.
    fold d n s0 dn.
    rewrite on_comp_flush_clean by done.
    change (set_digits (replicate 6 "") s0)
      with (set_digits (pasted_digits d 0) s0).
    pose proof (paste_rounds d n n 0 s0 dn [dn] (log w) D1 D2 D3
                  ltac:(lia) ltac:(lia)) as Hrounds.
    rewrite Nat.sub_0_r in Hrounds. exact Hrounds. }
  assert (Hw' : w' = run (mkWorld s1 [dn; dn] (log w)) [EvTimer 0; EvTimer 0]).
  { subst w'. unfold paste_timers.
    transitivity
      (run (run (step w (EvPaste i text))
                (flat_map (λ j, [EvTimer 0; EvTimer (n - j)]) (seq 0 n)))
           [EvTimer 0; EvTimer 0]).
    - unfold run. cbn [foldl]. by rewrite foldl_app.
    - by rewrite Hmid. }
  set (c := bool_decide (6 ≤ String.length d)).
  set (fc := Focus (String.length d `min` 5)).
  set (wa := step (mkWorld s1 [dn; dn] (log w)) (EvTimer 0)).
  assert (Hwa : wa = on_comp flush
                       (pasteDone (String.length d) (mkWorld s1 [dn] (log w))))
    by done.
  assert (Ha : digits (comp wa) = pasted_digits d n
               ∧ pending wa = dn :: (if c then [(500, Submit)] else [])
               ∧ log wa = log w ++ [fc]).
  { rewrite Hwa.
    destruct (page_flush_fields
                (comp (pasteDone (String.length d) (mkWorld s1 [dn] (log w)))))
      as (Fd & _).
    change (comp (on_comp flush ?x)) with (flush (comp x)).
    rewrite Fd. unfold pasteDone. fold c.
    replace (String.length d `min` (6 - 1)) with (String.length d `min` 5)
      by done.
    fold fc. by destruct c. }
  destruct Ha as (Ha1 & Ha2 & Ha3).
  assert (Hw2 : w' = on_comp flush
                       (pasteDone (String.length d)
                          (mkWorld (comp wa)
                                   (if c then [(500, Submit)] else [])
                                   (log w ++ [fc])))).
  { rewrite Hw'. cbn [run foldl]. fold wa.
    unfold step, dispatch, fire. rewrite Ha2, Ha3.
    cbn [lookup list_lookup delete list_delete run_task]. done. }
  set (wb := mkWorld (comp wa) (if c then [(500, Submit)] else [])
                     (log w ++ [fc])) in *.
  destruct (page_flush_fields (comp (pasteDone (String.length d) wb)))
    as (Fd & Fc & _).
  assert (Hcomp : comp w' = flush (comp (pasteDone (String.length d) wb)))
    by (by rewrite Hw2).
  assert (Hdig : digits (comp w') = pasted_digits d n).
  { rewrite Hcomp, Fd. unfold pasteDone.
    destruct (bool_decide _);
      change (digits (comp wa) = pasted_digits d n); done. }
  assert (Hcode : currentCode (comp w') = join (pasted_digits d n)).
  { rewrite Hcomp, Fc. unfold pasteDone.
    destruct (bool_decide _);
      change (join (digits (comp wa)) = join (pasted_digits d n));
      by rewrite Ha1. }
  split; [done|]. split; [done|]. split; [|split].
  - destruct HI' as [_ _ _ _ _ Hcompl _ _ _ _].
    rewrite Hcompl, Hcode. subst n.
    apply pasted_code_complete, all_digits_strip.
  - rewrite Hw2. unfold pasteDone. fold c. by destruct c.
  - rewrite Hw2. unfold pasteDone. fold c.
    replace (String.length d `min` (6 - 1)) with (String.length d `min` 5)
      by done.
    fold fc. destruct c; simpl; by rewrite <- app_assoc.
Qed.

Lemma paste_then_timers_witness :
  (digits (comp (run typed_world (EvPaste 4 "9-9" :: paste_timers 2)))
   = ["9"; "9"; ""; ""; ""; ""]
   ∧ pending (run typed_world (EvPaste 4 "9-9" :: paste_timers 2)) = []
   ∧ log (run typed_world (EvPaste 4 "9-9" :: paste_timers 2))
     = log typed_world ++ [Focus 2; Focus 2])
  ∧ (digits (comp (run initial (EvPaste 0 "123456" :: paste_timers 6)))
     = ["1"; "2"; "3"; "4"; "5"; "6"]
     ∧ pending (run initial (EvPaste 0 "123456" :: paste_timers 6))
       = [(500, Submit); (500, Submit)]
     ∧ log (run initial (EvPaste 0 "123456" :: paste_timers 6))
       = [Focus 5; Focus 5]).
Proof.
  destruct (paste_then_timers typed_world 4 "9-9" page_typed_world_reachable
              eq_refl ltac:(lia) ltac:(simpl; lia))
    as (Hd & _ & _ & Hp & Hl).
  destruct (paste_then_timers initial 0 "123456" ltac:(constructor)
              eq_refl ltac:(lia) ltac:(simpl; lia))
    as (Hd' & _ & _ & Hp' & Hl').
  split.
  - split; [exact Hd|]. split; [exact Hp | exact Hl].
  - split; [exact Hd'|]. split; [exact Hp' | exact Hl'].
Defined.

(** *** The two variants side by side *)

(** X20. On the same six cells the two variants agree about typing
    and about Backspace: after [handleInput], and after Backspace, the
    page's digit displays hold what the controller's [inputs] hold. *)
Theorem variants_agree_on_keystrokes
    (wc : Controller.world) (wp : world) (i : nat) (v : string) :
  i < 6 →
  length (Controller.inputs (Controller.comp wc)) = 6 →
  digits (comp wp) = Controller.inputs (Controller.comp wc) →
  digits (comp (handleInput i v wp))
  = Controller.inputs (Controller.comp (Controller.handleInput i v wc))
  ∧ digits (comp (handleKeydown i "Backspace" wp))
    = Controller.inputs
        (Controller.comp (Controller.handleKeydown i "Backspace" wc)).
Proof.
  intros Hi Hlen Heq. split.
  - unfold handleInput, Controller.handleInput.
    destruct (test_digit v); cbn [negb]; [|done].
    rewrite array_set_lt by lia.
    assert (Hd : digits (comp (on_comp updateCurrentCode
                                 (on_comp (animateDigitDrop i v) wp)))
                 = <[i:=v]> (Controller.inputs (Controller.comp wc))).
    { unfold on_comp, animateDigitDrop; simpl.
      rewrite decide_True by (rewrite Heq; lia). simpl. by rewrite Heq. }
    set (w3 := if truthy v && _ then _ else _).
    assert (H3 : digits (comp w3)
                 = <[i:=v]> (Controller.inputs (Controller.comp wc)))
      by (subst w3; by destruct (truthy v && _)).
    clearbody w3.
    destruct (isCodeComplete (comp w3)), (decide (i < 5)); simpl; by rewrite H3.
  - unfold handleKeydown, Controller.handleKeydown.
    rewrite !(bool_decide_true ("Backspace" = "Backspace")) by done.
    rewrite (bool_decide_false ("Backspace" = "ArrowLeft")) by done.
    rewrite (bool_decide_false ("Backspace" = "ArrowRight")) by done.
    rewrite (bool_decide_false ("Backspace" = "Enter")) by done.
    cbn [andb]. rewrite Heq.
    set (cells := Controller.inputs (Controller.comp wc)) in *.
    assert (Hclear : ∀ j, j < 6 → digits (clearDigit j (comp wp)) = <[j:=""]> cells).
    { intros j Hj. unfold clearDigit.
      rewrite decide_True by (rewrite Heq; lia). simpl. by rewrite Heq. }
    destruct (truthy (array_get cells i)) eqn:Ht; cbn [negb andb].
    + rewrite array_set_lt by lia. simpl. by apply Hclear.
    + destruct (decide (0 < i)) as [Hpos|Hpos].
      * rewrite bool_decide_true by done. rewrite array_set_lt by lia.
        simpl. apply Hclear. lia.
      * rewrite bool_decide_false by done. simpl.
        rewrite Hclear by lia.
        apply list_insert_id. apply truthy_false in Ht.
        unfold array_get in Ht.
        destruct (cells !! i) as [c|] eqn:Hc; [by rewrite Ht in Hc|].
        apply lookup_ge_None in Hc. lia.
Qed.

Lemma variants_agree_on_keystrokes_witness :
  digits (comp (handleInput 3 "4" (run initial [EvInput 0 "1"; EvInput 1 "2";
                                                EvInput 2 "3"])))
  = Controller.inputs
      (Controller.comp (Controller.handleInput 3 "4" Controller.partial_world)).
Proof.
  exact (proj1 (variants_agree_on_keystrokes Controller.partial_world
                  (run initial [EvInput 0 "1"; EvInput 1 "2"; EvInput 2 "3"])
                  3 "4" ltac:(lia) eq_refl eq_refl)).
Defined.

End PageMore.

(** ** Submitting an incomplete code, in the two variants *)

Module SubmitFacts.
Import Js JsFacts Page PageMore.






End SubmitFacts.
